(** * reddit_mcp_scraper: a shallow embedding and its properties

    The development follows [mcp-reddit-dahab-server/reddit_mcp_scraper.py]:
    the forum-reference parser [extract_subreddit_name], the listing id
    extraction ([re.findall], [dict.fromkeys], slice), the comment-tree
    flattener [extract_comment_bodies], the per-post loop of
    [scrape_reddit_mcp] and the argument handling of [main].

    Conventions of the embedding.
    - A Python [str] is a Rocq [string]; a character stands for the code
      point of the same number (code points below 256).
    - A call that can raise returns an [outcome]: [Returned v] or
      [Raised e].  Only subclasses of [Exception] are modelled.
    - The MCP session, [json.loads], [urllib.parse.urlparse] and [int] are
      collaborators: the scraper is defined over any implementation of
      the class [Collaborators].
    - Console output ([print]) is not modelled; the hand-off to the CSV
      writer is the last event of the trace of a run. *)

From Stdlib Require Import String Ascii List ZArith Lia Bool Arith PeanoNat Sorted.
Import ListNotations.
Open Scope string_scope.
Open Scope list_scope.
Open Scope nat_scope.

Set Implicit Arguments.
Set Warnings "-register-all".

(** ** Outcomes of Python computations *)

Inductive py_exception : Type :=
| ValueError
| JSONDecodeError
| TypeError
| AttributeError
| OtherException.

Inductive outcome (A : Type) : Type :=
| Returned (a : A)
| Raised (e : py_exception).

Arguments Returned {A} a.
Arguments Raised {A} e.

Definition outcome_bind {A B} (o : outcome A) (k : A -> outcome B) : outcome B :=
  match o with
  | Returned a => k a
  | Raised e => Raised e
  end.

(** ** Python string primitives *)

Definition code (c : ascii) : nat := nat_of_ascii c.

(** [str.isspace] on one character: the code points 9-13, 28-32, 0x85
    and 0xA0 are the whitespace below 256. *)
Definition py_isspace (c : ascii) : bool :=
  let n := code c in
  ((9 <=? n) && (n <=? 13)) || ((28 <=? n) && (n <=? 32))
  || (n =? 133) || (n =? 160).

(** [str.lower] on one character: A-Z, and the Latin-1 capitals
    0xC0-0xDE other than the multiplication sign 0xD7. *)
Definition py_lower_char (c : ascii) : ascii :=
  let n := code c in
  if ((65 <=? n) && (n <=? 90))
     || ((192 <=? n) && (n <=? 222) && negb (n =? 215))
  then ascii_of_nat (n + 32) else c.

Fixpoint lower (s : string) : string :=
  match s with
  | EmptyString => EmptyString
  | String c s' => String (py_lower_char c) (lower s')
  end.

(** [s.lstrip(chars)] and [s.rstrip(chars)], the set of characters
    given by its membership test. *)
Fixpoint lstrip_by (p : ascii -> bool) (s : string) : string :=
  match s with
  | EmptyString => EmptyString
  | String c s' => if p c then lstrip_by p s' else s
  end.

Fixpoint rstrip_by (p : ascii -> bool) (s : string) : string :=
  match s with
  | EmptyString => EmptyString
  | String c s' =>
      match rstrip_by p s' with
      | EmptyString => if p c then EmptyString else String c EmptyString
      | r => String c r
      end
  end.

Definition strip_by (p : ascii -> bool) (s : string) : string :=
  rstrip_by p (lstrip_by p s).

(** [s.strip()] *)
Definition strip (s : string) : string := strip_by py_isspace s.

(** [s.strip('/')] and the like: the characters of [chars] are removed
    from both ends. *)
Fixpoint char_in (c : ascii) (chars : string) : bool :=
  match chars with
  | EmptyString => false
  | String d chars' => Ascii.eqb c d || char_in c chars'
  end.

Definition strip_chars (chars : string) (s : string) : string :=
  strip_by (fun c => char_in c chars) s.

(** [s.startswith(p)] *)
Fixpoint startswith (p s : string) : bool :=
  match p with
  | EmptyString => true
  | String a p' =>
      match s with
      | EmptyString => false
      | String b s' => Ascii.eqb a b && startswith p' s'
      end
  end.

(** [s[n:]] for [n >= 0] *)
Fixpoint drop (n : nat) (s : string) : string :=
  match n, s with
  | O, _ => s
  | S _, EmptyString => EmptyString
  | S n', String _ s' => drop n' s'
  end.

(** [s[:n]] for [n >= 0] *)
Fixpoint take (n : nat) (s : string) : string :=
  match n, s with
  | O, _ => EmptyString
  | S _, EmptyString => EmptyString
  | S n', String c s' => String c (take n' s')
  end.

(** [needle in s] for strings: substring test. *)
Fixpoint contains (needle s : string) : bool :=
  startswith needle s ||
  match s with
  | EmptyString => false
  | String _ s' => contains needle s'
  end.

(** [s.split(sep)] for a separator of one character; the result has at
    least one element. *)
Fixpoint split (sep : ascii) (s : string) : list string :=
  match s with
  | EmptyString => [EmptyString]
  | String c s' =>
      if Ascii.eqb c sep then EmptyString :: split sep s'
      else match split sep s' with
           | h :: t => String c h :: t
           | [] => [String c EmptyString]
           end
  end.

(** [s.find(c)] for one character. *)
Fixpoint find_char (c : ascii) (s : string) : option nat :=
  match s with
  | EmptyString => None
  | String d s' =>
      if Ascii.eqb d c then Some O
      else match find_char c s' with
           | Some i => Some (S i)
           | None => None
           end
  end.

(** [s.rfind(c)] for one character. *)
Fixpoint rfind_char (c : ascii) (s : string) : option nat :=
  match s with
  | EmptyString => None
  | String d s' =>
      match rfind_char c s' with
      | Some i => Some (S i)
      | None => if Ascii.eqb d c then Some O else None
      end
  end.

(** [s.replace(c, '')] for one character. *)
Fixpoint remove_char (c : ascii) (s : string) : string :=
  match s with
  | EmptyString => EmptyString
  | String d s' =>
      if Ascii.eqb d c then remove_char c s' else String d (remove_char c s')
  end.

(** [x in l] and [l.index(x)] on a list of strings. *)
Fixpoint list_in (x : string) (l : list string) : bool :=
  match l with
  | [] => false
  | y :: l' => String.eqb y x || list_in x l'
  end.

Fixpoint list_index (x : string) (l : list string) : option nat :=
  match l with
  | [] => None
  | y :: l' =>
      if String.eqb y x then Some O
      else match list_index x l' with
           | Some i => Some (S i)
           | None => None
           end
  end.

(** ** [urllib.parse.urlparse(url).path]

    The path component as CPython 3.11 computes it ([urlsplit] followed
    by the parameter split of [urlparse]).  Two validations of the
    authority part are left to the caller: [check_bracketed_netloc]
    (the host between balanced brackets must be an IP literal) and
    [checknetloc] (NFKC check of a non-ASCII authority). *)

Definition is_c0_control_or_space (c : ascii) : bool := code c <=? 32.

Definition is_ascii_alpha (c : ascii) : bool :=
  let n := code c in
  ((65 <=? n) && (n <=? 90)) || ((97 <=? n) && (n <=? 122)).

Definition is_digit (c : ascii) : bool :=
  let n := code c in (48 <=? n) && (n <=? 57).

Definition scheme_chars : string :=
  "abcdefghijklmnopqrstuvwxyzABCDEFGHIJKLMNOPQRSTUVWXYZ0123456789+-.".

Fixpoint all_chars (p : ascii -> bool) (s : string) : bool :=
  match s with
  | EmptyString => true
  | String c s' => p c && all_chars p s'
  end.

Definition uses_params : list string :=
  [EmptyString; "ftp"; "hdl"; "prospero"; "http"; "imap"; "https"; "shttp";
   "rtsp"; "rtspu"; "sip"; "sips"; "mms"; "sftp"; "tel"].

(** The scheme, when the text before the first colon is one. *)
Definition split_scheme (url : string) : string * string :=
  match find_char ":" url with
  | Some (S i') =>
      let i := S i' in
      match url with
      | String c0 _ =>
          if is_ascii_alpha c0
             && all_chars (fun c => char_in c scheme_chars) (take i url)
          then (lower (take i url), drop (S i) url)
          else (EmptyString, url)
      | EmptyString => (EmptyString, url)
      end
  | _ => (EmptyString, url)
  end.

(** [_splitnetloc(url, 2)]: the authority ends at the first of
    slash, question mark and hash. *)
Fixpoint netloc_end (s : string) : nat :=
  match s with
  | EmptyString => O
  | String c s' => if char_in c "/?#" then O else S (netloc_end s')
  end.

Definition splitnetloc (url : string) : string * string :=
  let rest := drop 2 url in
  let delim := netloc_end rest in
  (take delim rest, drop delim rest).

(** [url.split(c, 1)[0]]: the text before the first [c]. *)
Definition before_char (c : ascii) (s : string) : string :=
  match find_char c s with
  | Some i => take i s
  | None => s
  end.

(** [_splitparams(url)[0]] *)
Definition splitparams_path (url : string) : string :=
  match rfind_char "/" url with
  | Some slash =>
      match find_char ";" (drop slash url) with
      | Some i => take (slash + i) url
      | None => url
      end
  | None =>
      match find_char ";" url with
      | Some i => take i url
      | None => take (String.length url - 1) url
      end
  end.

Section UrlParse.

Variable check_bracketed_netloc : string -> outcome unit.
Variable checknetloc : string -> outcome unit.

Definition urlsplit_path (url0 : string) : outcome (string * string) :=
  let url := lstrip_by is_c0_control_or_space url0 in
  let url := remove_char "010" (remove_char "013" (remove_char "009" url)) in
  let '(scheme, url) := split_scheme url in
  outcome_bind
    (if String.eqb (take 2 url) "//" then
       let '(netloc, url) := splitnetloc url in
       let has_open := contains "[" netloc in
       let has_close := contains "]" netloc in
       if (has_open && negb has_close) || (has_close && negb has_open)
       then Raised ValueError
       else outcome_bind
              (if has_open && has_close then check_bracketed_netloc netloc
               else Returned tt)
              (fun _ => Returned (netloc, url))
     else Returned (EmptyString, url))
    (fun '(netloc, url) =>
       let url := before_char "#" url in
       let url := before_char "?" url in
       outcome_bind (checknetloc netloc)
         (fun _ => Returned (scheme, url))).

Definition cpython_urlparse_path (url : string) : outcome string :=
  outcome_bind (urlsplit_path url)
    (fun '(scheme, path) =>
       if list_in scheme uses_params && contains ";" path
       then Returned (splitparams_path path)
       else Returned path).

End UrlParse.

(** ** Listing id extraction

    [re.findall(r'/comments/([a-zA-Z0-9]+)/', text)]: the matches are
    found from left to right and do not overlap; each contributes its
    group, the token. *)

Definition is_alnum (c : ascii) : bool := is_ascii_alpha c || is_digit c.

(** The longest run of token characters at the head of [s]. *)
Fixpoint alnum_run (s : string) : string :=
  match s with
  | EmptyString => EmptyString
  | String c s' => if is_alnum c then String c (alnum_run s') else EmptyString
  end.

Definition comments_prefix : string := "/comments/".

(** The pattern matched at the head of [s].  The token is the longest
    run: a shorter one is followed by a token character, never by the
    closing slash. *)
Definition match_at (s : string) : option string :=
  if startswith comments_prefix s then
    let after := drop (String.length comments_prefix) s in
    let tok := alnum_run after in
    match tok, drop (String.length tok) after with
    | String _ _, String c _ => if Ascii.eqb c "/" then Some tok else None
    | _, _ => None
    end
  else None.

(** The scan: [skip] counts the characters of the last match that are
    still to be passed over. *)
Fixpoint findall_from (skip : nat) (s : string) : list string :=
  match s with
  | EmptyString => []
  | String _ s' =>
      match skip with
      | S k => findall_from k s'
      | O =>
          match match_at s with
          | Some tok =>
              tok :: findall_from (String.length comments_prefix + String.length tok) s'
          | None => findall_from O s'
          end
      end
  end.

Definition findall (text : string) : list string := findall_from O text.

(** [list(dict.fromkeys(l))]: the keys of a dict keep the order of their
    first insertion. *)
Definition dict_insert_key (keys : list string) (k : string) : list string :=
  if list_in k keys then keys else keys ++ [k].

Definition dict_fromkeys (l : list string) : list string :=
  fold_left dict_insert_key l [].

(** [l[:n]] for any integer [n]; a negative [n] counts from the end. *)
Definition slice_to {A} (l : list A) (n : Z) : list A :=
  if (0 <=? n)%Z then firstn (Z.to_nat n) l
  else firstn (List.length l - Z.to_nat (- n)) l.

(** Lines 59-60 of the source. *)
Definition extract_post_ids (response_text : string) (post_limit : Z) : list string :=
  let post_id_matches := findall response_text in
  slice_to (dict_fromkeys post_id_matches) post_limit.

(** The deduplication as the specification words it: an id is kept at
    its first occurrence and its later occurrences are dropped. *)
Fixpoint first_seen (l : list string) : list string :=
  match l with
  | [] => []
  | x :: l' => x :: filter (fun y => negb (String.eqb y x)) (first_seen l')
  end.

(** [x] occurs in [l], and first occurs there before [y] first does. *)
Definition first_before (l : list string) (x y : string) : Prop :=
  exists i j, list_index x l = Some i /\ list_index y l = Some j /\ i < j.

(** The text of a link to the post [id], as the pattern reads it. *)
Definition comments_link (id : string) : string :=
  (comments_prefix ++ id ++ "/")%string.

(** A text without a slash: no match of the pattern begins in it. *)
Definition slash_free (s : string) : bool :=
  all_chars (fun c => negb (Ascii.eqb c "/")) s.

(** A listing text: each item is a text without a link followed by the
    link of an id; [tail] ends the listing. *)
Fixpoint listing_of (items : list (string * string)) (tail : string) : string :=
  match items with
  | [] => tail
  | (filler, id) :: rest =>
      (filler ++ comments_link id ++ listing_of rest tail)%string
  end.

(** An id as the pattern accepts it. *)
Definition is_token (id : string) : bool :=
  negb (String.eqb id EmptyString) && all_chars is_alnum id.

(** ** JSON values, as [json.loads] returns them *)

Inductive json : Type :=
| JNull
| JBool (b : bool)
| JInt (n : Z)
| JFloat (nonzero : bool)
| JString (s : string)
| JList (items : list json)
| JDict (fields : list (string * json)).

(** Truth value of a Python object.  Of a float only its being zero is
    observed, which [JFloat] records. *)
Definition truthy (v : json) : bool :=
  match v with
  | JNull => false
  | JBool b => b
  | JInt n => negb (n =? 0)%Z
  | JFloat nonzero => nonzero
  | JString s => negb (String.eqb s EmptyString)
  | JList items => match items with [] => false | _ => true end
  | JDict fields => match fields with [] => false | _ => true end
  end.

(** [d[k]] when [k in d] *)
Fixpoint dict_get (k : string) (d : list (string * json)) : option json :=
  match d with
  | [] => None
  | (k', v) :: d' => if String.eqb k' k then Some v else dict_get k d'
  end.

(** [a or b] *)
Definition py_or (a b : json) : json := if truthy a then a else b.

Definition nonempty (s : string) : bool := negb (String.eqb s EmptyString).

(** ** The comment-tree flattener (lines 118-132) *)

Definition comment_tombstones : list string :=
  ["[deleted]"; "[removed]"; EmptyString].

(** Lines 122-125: the node's own body. *)
Definition own_body (d : list (string * json)) : outcome (list string) :=
  match dict_get "body" d with
  | None => Returned []
  | Some (JString s) =>
      let body := strip s in
      if nonempty body && negb (list_in body comment_tombstones)
      then Returned [body] else Returned []
  | Some _ => Raised AttributeError
  end.

Fixpoint extract_comment_bodies (data : json) : outcome (list string) :=
  match data with
  | JDict d =>
      outcome_bind (own_body d) (fun bodies =>
        (fix replies_of (fields : list (string * json)) : outcome (list string) :=
           match fields with
           | [] => Returned bodies
           | (k, v) :: fields' =>
               if String.eqb k "replies" then
                 match v with
                 | JList items =>
                     outcome_bind
                       ((fix each (l : list json) : outcome (list string) :=
                           match l with
                           | [] => Returned []
                           | reply :: l' =>
                               outcome_bind (extract_comment_bodies reply) (fun a =>
                               outcome_bind (each l') (fun b => Returned (a ++ b)))
                           end) items)
                       (fun more => Returned (bodies ++ more))
                 | JString _ | JDict _ => Returned bodies
                 | JNull => Returned bodies
                 | JBool b => if b then Raised TypeError else Returned bodies
                 | JInt n => if (n =? 0)%Z then Returned bodies else Raised TypeError
                 | JFloat nonzero => if nonzero then Raised TypeError else Returned bodies
                 end
               else replies_of fields'
           end) d)
  | JList items =>
      (fix each (l : list json) : outcome (list string) :=
         match l with
         | [] => Returned []
         | item :: l' =>
             outcome_bind (extract_comment_bodies item) (fun a =>
             outcome_bind (each l') (fun b => Returned (a ++ b)))
         end) items
  | _ => Returned []
  end.

(** The same loop, over an explicit list: [for x in l:
    bodies.extend(extract_comment_bodies(x))]. *)
Fixpoint extend_all (l : list json) : outcome (list string) :=
  match l with
  | [] => Returned []
  | x :: l' =>
      outcome_bind (extract_comment_bodies x) (fun a =>
      outcome_bind (extend_all l') (fun b => Returned (a ++ b)))
  end.

(** [for reply in replies], for the values [replies] can take: a list
    yields its items, a string its characters and a dict its keys (none
    of which is a dict or a list), anything else is not iterable. *)
Definition iterate_replies (replies : json) : outcome (list string) :=
  match replies with
  | JList items => extend_all items
  | JString _ | JDict _ => Returned []
  | _ => Raised TypeError
  end.

(** A comment tree of the expected shape, and its encoding. *)
Inductive CommentNode : Type :=
| Comment (body : option string) (replies : list CommentNode).

Fixpoint encode_comment (n : CommentNode) : json :=
  match n with
  | Comment body replies =>
      JDict (match body with
             | Some b => [("body", JString b)]
             | None => []
             end ++ [("replies", JList (map encode_comment replies))])
  end.

(** The bodies of a tree in depth-first pre-order. *)
Fixpoint bodies_preorder (n : CommentNode) : list string :=
  match n with
  | Comment body replies =>
      match body with Some b => [b] | None => [] end
      ++ flat_map bodies_preorder replies
  end.

Definition keep_comment_body (body : string) : bool :=
  nonempty body && negb (list_in body comment_tombstones).

(** What the flattener is to emit of a sequence of bodies: each one
    trimmed, the empty ones and the tombstones left out. *)
Definition emitted_bodies (bodies : list string) : list string :=
  filter keep_comment_body (map strip bodies).

(** *** Shapes of comment data

    A value is [unrecognized] by the flattener when it is neither a dict
    nor a list.  It is [flattenable] when every dict the traversal
    visits has a string under [body], if anything, and under [replies],
    if anything, a value that is false or can be iterated. *)

Definition unrecognized (v : json) : Prop :=
  match v with
  | JDict _ | JList _ => False
  | _ => True
  end.

Definition iterable (v : json) : Prop :=
  match v with
  | JList _ | JString _ | JDict _ => True
  | _ => False
  end.

Definition body_is_string (d : list (string * json)) : Prop :=
  forall v, dict_get "body" d = Some v -> exists s, v = JString s.

Inductive flattenable : json -> Prop :=
| flattenable_other (v : json) :
    unrecognized v -> flattenable v
| flattenable_list (items : list json) :
    Forall flattenable items -> flattenable (JList items)
| flattenable_dict (d : list (string * json)) :
    body_is_string d ->
    (forall r, dict_get "replies" d = Some r -> truthy r = true -> iterable r) ->
    (forall items, dict_get "replies" d = Some (JList items) ->
                   Forall flattenable items) ->
    flattenable (JDict d).

(** What an entry of the aggregate looks like: non-empty and equal to
    its own trimmed form. *)
Definition clean_entry (s : string) : Prop :=
  s <> EmptyString /\ strip s = s.

(** ** The collaborators *)

(** The three tools of the MCP server, with their arguments. *)
Inductive tool_request : Type :=
| GetSubredditHotPosts (subreddit_name : string) (limit : Z)
| GetPostContent (post_id : string)
| GetPostComments (post_id : string).

(** An item of [result.content]: only a text item has a [text]. *)
Inductive content_block : Type :=
| TextContent (text : string)
| OtherContent.

Class Collaborators : Type := {
  (** the state of the server behind the session *)
  Session : Type;
  (** [stdio_client], [ClientSession] and [session.initialize()] *)
  session_initialize : Session -> Session * outcome unit;
  (** [session.call_tool(name, arguments)], returning [result.content] *)
  call_tool : Session -> tool_request -> Session * outcome (list content_block);
  (** [json.loads] *)
  json_loads : string -> outcome json;
  (** [urlparse(url).path] *)
  urlparse_path : string -> outcome string;
  (** [int] on a string *)
  py_int : string -> outcome Z
}.

(** What the run does to the outside, in order. *)
Inductive event : Type :=
| Initialized
| Called (request : tool_request)
| Slept
| WroteCsv (output_file : string) (rows : list string).

Section Scraper.

Context {C : Collaborators}.

(** *** [extract_subreddit_name] (lines 10-23) *)

Definition extract_subreddit_name (url : string) : outcome string :=
  if startswith "r/" url then Returned (drop 2 url)
  else
    outcome_bind (urlparse_path url) (fun path =>
      let path_parts := split "/" (strip_chars "/" path) in
      match list_index "r" path_parts with
      | Some r_index =>
          match nth_error path_parts (r_index + 1) with
          | Some name => Returned name
          | None => Returned url
          end
      | None => Returned url
      end).

(** *** The state of a run and its monad *)

Record state : Type := {
  session : Session;
  reddit_texts : list string;
  trace : list event
}.

Definition M (A : Type) : Type := state -> outcome A * state.

Definition ret {A} (a : A) : M A := fun st => (Returned a, st).

Definition bind {A B} (m : M A) (k : A -> M B) : M B :=
  fun st =>
    match m st with
    | (Returned a, st') => k a st'
    | (Raised e, st') => (Raised e, st')
    end.

Definition raise {A} (e : py_exception) : M A := fun st => (Raised e, st).

(** [try: m except Exception: handler] *)
Definition try_except {A} (m : M A) (handler : py_exception -> M A) : M A :=
  fun st =>
    match m st with
    | (Returned a, st') => (Returned a, st')
    | (Raised e, st') => handler e st'
    end.

Definition lift {A} (o : outcome A) : M A := fun st => (o, st).

Definition log (e : event) : M unit :=
  fun st => (Returned tt,
             {| session := session st;
                reddit_texts := reddit_texts st;
                trace := trace st ++ [e] |}).

(** [reddit_texts.append(s)] *)
Definition append_text (s : string) : M unit :=
  fun st => (Returned tt,
             {| session := session st;
                reddit_texts := reddit_texts st ++ [s];
                trace := trace st |}).

(** [await session.call_tool(...)] *)
Definition call (request : tool_request) : M (list content_block) :=
  fun st =>
    let '(sess, r) := call_tool (session st) request in
    (r, {| session := sess;
           reddit_texts := reddit_texts st;
           trace := trace st ++ [Called request] |}).

(** [await asyncio.sleep(1)] *)
Definition sleep : M unit := log Slept.

(** The state after [new] has been appended to the aggregate. *)
Definition state_append (st : state) (new : list string) : state :=
  {| session := session st;
     reddit_texts := reddit_texts st ++ new;
     trace := trace st |}.

Definition exec {A} (m : M A) (st : state) : state := snd (m st).
Definition result {A} (m : M A) (st : state) : outcome A := fst (m st).

End Scraper.

Declare Scope py_scope.
Delimit Scope py_scope with py.
Notation "x <- m ;; k" := (bind m (fun x => k))
  (at level 61, m at next level, right associativity) : py_scope.
Notation "m ;; k" := (bind m (fun _ => k))
  (at level 61, right associativity) : py_scope.
Open Scope py_scope.

Section Run.

Context {C : Collaborators}.

(** [content[0].text] *)
Definition first_text (content : list content_block) : M string :=
  match content with
  | TextContent text :: _ => ret text
  | OtherContent :: _ => raise AttributeError
  | [] => raise OtherException
  end.

Definition error_marker : string := "Error processing".

(** Lines 88-91. *)
Definition collect_title (post_data : json) : M unit :=
  match post_data with
  | JDict d =>
      match dict_get "title" d with
      | None => ret tt
      | Some (JString s) =>
          let title := strip s in
          if nonempty title then append_text title else ret tt
      | Some _ => raise AttributeError
      end
  | JList items =>
      if existsb (fun v => match v with
                           | JString s => String.eqb s "title"
                           | _ => false
                           end) items
      then raise TypeError else ret tt
  | JString s => if contains "title" s then raise TypeError else ret tt
  | _ => raise TypeError
  end.

Definition body_sentinels : list string :=
  ["none"; "n/a"; "[deleted]"; "[removed]"; EmptyString].

(** [post_data.get(k)] and [post_data.get(k, '')] on a dict. *)
Definition dict_get_default (k : string) (default : json)
           (d : list (string * json)) : json :=
  match dict_get k d with
  | Some v => v
  | None => default
  end.

(** Line 94: [post_data.get('selftext') or post_data.get('body') or
    post_data.get('text', '')]. *)
Definition body_text (d : list (string * json)) : json :=
  py_or (dict_get_default "selftext" JNull d)
        (py_or (dict_get_default "body" JNull d)
               (dict_get_default "text" (JString EmptyString) d)).

(** Lines 94-96. *)
Definition collect_body (post_data : json) : M unit :=
  match post_data with
  | JDict d =>
      if truthy (body_text d) then
        match body_text d with
        | JString s =>
            if nonempty (strip s) && negb (list_in (lower s) body_sentinels)
            then append_text (strip s) else ret tt
        | _ => raise AttributeError
        end
      else ret tt
  | _ => raise AttributeError
  end.

(** Lines 84-102: the content text is parsed and collected; only a
    [JSONDecodeError] is handled here. *)
Definition collect_content (post_full_text : string) : M unit :=
  try_except
    (post_data <- lift (json_loads post_full_text) ;;
     collect_title post_data ;;
     collect_body post_data)
    (fun e => match e with
              | JSONDecodeError => ret tt
              | _ => raise e
              end).

(** Lines 138-140. *)
Fixpoint append_comment_bodies (comment_bodies : list string) : M unit :=
  match comment_bodies with
  | [] => ret tt
  | body :: rest =>
      (if nonempty (strip body) then append_text body else ret tt) ;;
      append_comment_bodies rest
  end.

(** Lines 105-151. *)
Definition fetch_comments (post_id : string) : M unit :=
  try_except
    (content <- call (GetPostComments post_id) ;;
     match content with
     | [] => ret tt
     | _ =>
         comments_text <- first_text content ;;
         if negb (contains error_marker comments_text) then
           try_except
             (comments_data <- lift (json_loads comments_text) ;;
              comment_bodies <- lift (extract_comment_bodies comments_data) ;;
              append_comment_bodies comment_bodies)
             (fun e => match e with
                       | JSONDecodeError => ret tt
                       | _ => raise e
                       end)
         else ret tt
     end)
    (fun _ => ret tt).

(** Lines 66-159: the body of the loop for one id.  [continue] leaves
    the body before the comments are fetched. *)
Definition process_post (idx : nat) (post_id : string) : M unit :=
  try_except
    (content <- call (GetPostContent post_id) ;;
     proceed <- match content with
                | [] => ret true
                | _ =>
                    post_full_text <- first_text content ;;
                    if contains error_marker post_full_text then ret false
                    else collect_content post_full_text ;; ret true
                end ;;
     if proceed : bool then
       fetch_comments post_id ;;
       if idx mod 10 =? 0 then sleep else ret tt
     else ret tt)
    (fun _ => ret tt).

(** Line 65: [for idx, post_id in enumerate(post_ids, 1)]. *)
Fixpoint process_posts (idx : nat) (post_ids : list string) : M unit :=
  match post_ids with
  | [] => ret tt
  | post_id :: rest =>
      process_post idx post_id ;;
      process_posts (S idx) rest
  end.

Definition set_reddit_texts (l : list string) : M unit :=
  fun st => (Returned tt,
             {| session := session st; reddit_texts := l; trace := trace st |}).

Definition initialize : M unit :=
  fun st =>
    let '(sess, r) := session_initialize (session st) in
    (r, {| session := sess;
           reddit_texts := reddit_texts st;
           trace := trace st ++ [Initialized] |}).

Definition get_reddit_texts : M (list string) :=
  fun st => (Returned (reddit_texts st), st).

(** [scrape_reddit_mcp] (lines 25-169). *)
Definition scrape_reddit_mcp (subreddit_url : string) (post_limit : Z) : M string :=
  subreddit_name <- lift (extract_subreddit_name subreddit_url) ;;
  set_reddit_texts [] ;;
  initialize ;;
  content <- call (GetSubredditHotPosts subreddit_name (Z.min post_limit 100)) ;;
  response_text <- match content with
                   | [] => ret EmptyString
                   | _ => first_text content
                   end ;;
  let post_ids := extract_post_ids response_text post_limit in
  process_posts 1 post_ids ;;
  rows <- get_reddit_texts ;;
  let output_file := (subreddit_name ++ "_reddit_data.csv")%string in
  log (WroteCsv output_file rows) ;;
  ret output_file.

(** The default of the parameter [post_limit] of [scrape_reddit_mcp]. *)
Definition scrape_default_post_limit : Z := 1000.

(** [main] (lines 171-180); [sys.exit(1)] ends the program with
    [UsageExit]. *)
Inductive main_result : Type :=
| UsageExit
| Completed (output_file : string).

Definition main_post_limit (argv : list string) : outcome Z :=
  match nth_error argv 2 with
  | Some arg => py_int arg
  | None => Returned 100%Z
  end.

Definition main (argv : list string) : M main_result :=
  match argv with
  | _ :: subreddit_url :: _ =>
      post_limit <- lift (main_post_limit argv) ;;
      output_file <- scrape_reddit_mcp subreddit_url post_limit ;;
      ret (Completed output_file)
  | _ => ret UsageExit
  end.

(** *** What a response contributes

    The entries that the content and the comments of one post add to
    the aggregate, read off the two responses. *)

Definition title_entries (post_data : json) : list string :=
  match post_data with
  | JDict d =>
      match dict_get "title" d with
      | Some (JString s) => if nonempty (strip s) then [strip s] else []
      | _ => []
      end
  | _ => []
  end.

Definition body_entries (post_data : json) : list string :=
  match post_data with
  | JDict d =>
      match body_text d with
      | JString s =>
          if nonempty (strip s) && negb (list_in (lower s) body_sentinels)
          then [strip s] else []
      | _ => []
      end
  | _ => []
  end.

(** The title field is absent or a string. *)
Definition title_is_text (d : list (string * json)) : bool :=
  match dict_get "title" d with
  | None | Some (JString _) => true
  | Some _ => false
  end.

(** The body field chosen by line 94 is false or a string. *)
Definition body_is_text (d : list (string * json)) : bool :=
  match body_text d with
  | JString _ => true
  | v => negb (truthy v)
  end.

(** The records on which lines 88-96 raise nothing. *)
Definition record_collectable (post_data : json) : bool :=
  match post_data with
  | JDict d => title_is_text d && body_is_text d
  | _ => false
  end.

Definition record_entries (post_data : json) : list string :=
  match post_data with
  | JDict d =>
      title_entries post_data
      ++ (if title_is_text d then body_entries post_data else [])
  | _ => []
  end.

Definition content_entries (r : outcome (list content_block)) : list string :=
  match r with
  | Returned (TextContent text :: _) =>
      if contains error_marker text then []
      else match json_loads text with
           | Returned post_data => record_entries post_data
           | Raised _ => []
           end
  | _ => []
  end.

Definition comment_entries (r : outcome (list content_block)) : list string :=
  match r with
  | Returned (TextContent text :: _) =>
      if contains error_marker text then []
      else match json_loads text with
           | Returned comments_data =>
               match extract_comment_bodies comments_data with
               | Returned comment_bodies => comment_bodies
               | Raised _ => []
               end
           | Raised _ => []
           end
  | _ => []
  end.

(** The content responses after which the loop body goes on to the
    comments: no content at all, or a text without the error marker
    that either is no JSON or is a record collected without raising. *)
Definition content_completes (r : outcome (list content_block)) : bool :=
  match r with
  | Raised _ => false
  | Returned [] => true
  | Returned (OtherContent :: _) => false
  | Returned (TextContent text :: _) =>
      negb (contains error_marker text) &&
      match json_loads text with
      | Returned post_data => record_collectable post_data
      | Raised JSONDecodeError => true
      | Raised _ => false
      end
  end.

(** Line 54: the listing text read off the response of the listing
    call. *)
Definition listing_text (r : outcome (list content_block)) : outcome string :=
  match r with
  | Raised e => Raised e
  | Returned [] => Returned EmptyString
  | Returned (TextContent text :: _) => Returned text
  | Returned (OtherContent :: _) => Raised AttributeError
  end.

(** The post ids of the content requests in a trace. *)
Definition content_requests (events : list event) : list string :=
  flat_map (fun e => match e with
                     | Called (GetPostContent post_id) => [post_id]
                     | _ => []
                     end) events.

(** The post ids of the comments requests in a trace. *)
Definition comment_requests (events : list event) : list string :=
  flat_map (fun e => match e with
                     | Called (GetPostComments post_id) => [post_id]
                     | _ => []
                     end) events.

(** The pauses in a trace. *)
Definition sleeps (events : list event) : nat :=
  List.length (filter (fun e => match e with Slept => true | _ => false end) events).

(** The hand-offs to the CSV writer in a trace. *)
Definition csv_writes (events : list event) : list (string * list string) :=
  flat_map (fun e => match e with
                     | WroteCsv output_file rows => [(output_file, rows)]
                     | _ => []
                     end) events.

(** The turns among [idx], ..., [idx + n - 1] whose number is a multiple
    of ten (line 154). *)
Definition pause_turns (idx n : nat) : list nat :=
  filter (fun k => k mod 10 =? 0) (seq idx n).

(** The comments responses that add nothing: a failed call, no content,
    an item without text, the error marker, a text that is no JSON, a
    tree on which the flattener raises. *)
Definition comments_fail (r : outcome (list content_block)) : Prop :=
  match r with
  | Raised _ => True
  | Returned [] => True
  | Returned (OtherContent :: _) => True
  | Returned (TextContent text :: _) =>
      contains error_marker text = true \/
      (exists e, json_loads text = Raised e) \/
      (exists comments_data e,
          json_loads text = Returned comments_data /\
          extract_comment_bodies comments_data = Raised e)
  end.

End Run.

(** ** Concrete collaborators

    Implementations of [Collaborators] on which the scraper runs by
    computation: the URL parser of CPython, a server that answers each
    request from a fixed function, and a JSON decoder given by a finite
    table of texts. *)

Definition table_loads (table : list (string * json)) (text : string)
  : outcome json :=
  match dict_get text table with
  | Some v => Returned v
  | None => Raised JSONDecodeError
  end.

(** [int] on a string of decimal digits; the fixture rejects any other
    text. *)
Fixpoint decimal_value (acc : Z) (s : string) : Z :=
  match s with
  | EmptyString => acc
  | String c s' => decimal_value (10 * acc + Z.of_nat (code c - 48))%Z s'
  end.

Definition decimal_int (s : string) : outcome Z :=
  if nonempty s && all_chars is_digit s then Returned (decimal_value 0%Z s)
  else Raised ValueError.

Definition scripted (respond : tool_request -> outcome (list content_block))
           (table : list (string * json)) : Collaborators :=
  {| Session := unit;
     session_initialize := fun s => (s, Returned tt);
     call_tool := fun s request => (s, respond request);
     json_loads := table_loads table;
     urlparse_path :=
       cpython_urlparse_path (fun _ => Returned tt) (fun _ => Returned tt);
     py_int := decimal_int |}.

Definition initial_state {C : Collaborators} (s : Session) : state :=
  {| session := s; reddit_texts := []; trace := [] |}.

(** A server whose content call fails at the transport level while its
    comments call answers. *)
Definition content_call_fails : Collaborators :=
  scripted (fun request =>
              match request with
              | GetPostContent _ => Raised OtherException
              | GetPostComments _ => Returned [TextContent "comments of the post"]
              | GetSubredditHotPosts _ _ => Returned []
              end)
           [("comments of the post", JList [JDict [("body", JString "hello")]])].

(** A server whose content call answers with the soft-error text. *)
Definition content_soft_error : Collaborators :=
  scripted (fun request =>
              match request with
              | GetPostContent _ => Returned [TextContent "Error processing request"]
              | GetPostComments _ => Returned [TextContent "comments of the post"]
              | GetSubredditHotPosts _ _ => Returned []
              end)
           [("comments of the post", JList [JDict [("body", JString "hello")]])].

(** A server with a listing of three links (two of them to the same
    post), a post with a title and a body, and one comment with a
    reply. *)
Definition sample_listing : string :=
  ("https://www.reddit.com/r/dahab/comments/abc123/diving/ "
   ++ "https://www.reddit.com/r/dahab/comments/xyz789/hotels/ "
   ++ "https://www.reddit.com/r/dahab/comments/abc123/diving/")%string.

Definition sample_server : Collaborators :=
  scripted (fun request =>
              match request with
              | GetSubredditHotPosts _ _ => Returned [TextContent sample_listing]
              | GetPostContent _ => Returned [TextContent "content of the post"]
              | GetPostComments _ => Returned [TextContent "comments of the post"]
              end)
           [("content of the post",
             JDict [("title", JString " Diving in Dahab ");
                    ("selftext", JString "Where to go?")]);
            ("comments of the post",
             JList [JDict [("body", JString "[deleted]");
                           ("replies",
                            JList [JDict [("body", JString "hello");
                                          ("replies", JString EmptyString)]])]])].

(** A server whose comments call fails while the content call answers
    with a record of a title and a body. *)
Definition comments_call_fails : Collaborators :=
  scripted (fun request =>
              match request with
              | GetPostContent _ => Returned [TextContent "content of the post"]
              | GetPostComments _ => Raised OtherException
              | GetSubredditHotPosts _ _ => Returned [TextContent sample_listing]
              end)
           [("content of the post",
             JDict [("title", JString "Hi"); ("selftext", JString "there")])].

(** A server whose content is a record with a title and a number for a
    body. *)
Definition body_is_number : Collaborators :=
  scripted (fun request =>
              match request with
              | GetPostContent _ => Returned [TextContent "content of the post"]
              | GetPostComments _ => Returned [TextContent "comments of the post"]
              | GetSubredditHotPosts _ _ => Returned [TextContent sample_listing]
              end)
           [("content of the post",
             JDict [("title", JString " Hi "); ("selftext", JInt 5)]);
            ("comments of the post", JList [JDict [("body", JString "hello")]])].

(** A server none of whose texts is JSON. *)
Definition no_json : Collaborators :=
  scripted (fun request =>
              match request with
              | GetPostContent _ => Returned [TextContent "Diving in Dahab"]
              | GetPostComments _ => Returned [TextContent "hello"]
              | GetSubredditHotPosts _ _ => Returned [TextContent sample_listing]
              end)
           [].


(** A deleted comment with one reply and, next to the reply, a value
    that is no comment. *)
Definition deleted_with_reply : json :=
  JDict [("body", JString "[deleted]");
         ("replies", JList [JDict [("body", JString "hello")]; JInt 7])].

(** * Properties *)

Unset Implicit Arguments.

(** ** Strings and lists *)

Lemma startswith_append (p rest : string) : startswith p (p ++ rest) = true.
Proof.
  induction p as [| a p IH]; simpl; [reflexivity |].
  now rewrite Ascii.eqb_refl, IH.
Qed.

Lemma drop_append (p rest : string) : drop (String.length p) (p ++ rest) = rest.
Proof.
  induction p as [| a p IH]; simpl; [now destruct rest | exact IH].
Qed.

Lemma startswith_inv (p s : string) :
  startswith p s = true -> s = (p ++ drop (String.length p) s)%string.
Proof.
  revert s. induction p as [| a p IH]; intros s; simpl.
  - now destruct s.
  - destruct s as [| b s]; [discriminate |].
    intros H. apply andb_true_iff in H as [Hab Hp].
    apply Ascii.eqb_eq in Hab. subst b. f_equal. now apply IH.
Qed.

Lemma list_index_split (x : string) (l : list string) (i : nat) :
  list_index x l = Some i ->
  exists before after,
    l = before ++ x :: after /\ List.length before = i /\ ~ In x before.
Proof.
  revert i. induction l as [| y l IH]; simpl; intros i Hi; [discriminate |].
  destruct (String.eqb y x) eqn:E.
  - apply String.eqb_eq in E. subst y. injection Hi as <-.
    exists [], l. repeat split. intros [].
  - destruct (list_index x l) as [j |]; [| discriminate].
    injection Hi as <-.
    destruct (IH j eq_refl) as (before & after & -> & Hlen & Hnin).
    exists (y :: before), after. repeat split; simpl; [congruence |].
    apply String.eqb_neq in E. intros [-> | Hin]; [now elim E | now elim Hnin].
Qed.

Lemma list_index_first (x : string) (before after : list string) :
  ~ In x before ->
  list_index x (before ++ x :: after) = Some (List.length before).
Proof.
  induction before as [| y before IH]; simpl; intros Hnin.
  - now rewrite String.eqb_refl.
  - destruct (String.eqb y x) eqn:E.
    + apply String.eqb_eq in E. elim Hnin. now left.
    + rewrite IH; [reflexivity |]. intros Hin. elim Hnin. now right.
Qed.

Lemma list_index_none (x : string) (l : list string) :
  list_index x l = None -> ~ In x l.
Proof.
  induction l as [| y l IH]; simpl; intros Hi; [now intros [] |].
  destruct (String.eqb y x) eqn:E; [discriminate |].
  destruct (list_index x l); [discriminate |].
  apply String.eqb_neq in E. intros [-> | Hin]; [now elim E | now apply IH].
Qed.

Lemma nth_error_after (A : Type) (before : list A) (x : A) (after : list A) (k : nat) :
  nth_error (before ++ x :: after) (List.length before + S k) = nth_error after k.
Proof.
  induction before as [| y before IH]; simpl; [reflexivity | exact IH].
Qed.

Lemma nth_error_at (A : Type) (before : list A) (x : A) (after : list A) :
  nth_error (before ++ x :: after) (List.length before) = Some x.
Proof.
  induction before as [| y before IH]; simpl; [reflexivity | exact IH].
Qed.

(** ** The forum-reference parser *)

Section ParserFacts.

Context {C : Collaborators}.

Lemma extract_subreddit_name_shorthand (rest : string) :
  extract_subreddit_name ("r/" ++ rest) = Returned rest.
Proof.
  unfold extract_subreddit_name.
  now rewrite (startswith_append "r/" rest).
Qed.

Lemma extract_subreddit_name_url (url path : string) :
  startswith "r/" url = false ->
  urlparse_path url = Returned path ->
  extract_subreddit_name url =
  match list_index "r" (split "/" (strip_chars "/" path)) with
  | Some r_index =>
      match nth_error (split "/" (strip_chars "/" path)) (r_index + 1) with
      | Some name => Returned name
      | None => Returned url
      end
  | None => Returned url
  end.
Proof.
  intros Hs Hp. unfold extract_subreddit_name. rewrite Hs, Hp. reflexivity.
Qed.

(** C8, as the code has it: the shorthand prefix is stripped and the
    remainder returned verbatim; otherwise the segment that follows the
    first marker segment of the URL path is returned when there is one,
    and the input itself when no marker segment is followed by another
    segment; the function raises exactly what the URL parser raises,
    which happens only outside the shorthand branch. *)
Theorem extract_subreddit_name_cases (url : string) :
  (forall rest, url = ("r/" ++ rest)%string ->
     extract_subreddit_name url = Returned rest) /\
  (startswith "r/" url = false ->
     (forall e, urlparse_path url = Raised e ->
        extract_subreddit_name url = Raised e) /\
     (forall path, urlparse_path url = Returned path ->
        let path_parts := split "/" (strip_chars "/" path) in
        (forall before name after,
           path_parts = before ++ "r" :: name :: after -> ~ In "r" before ->
           extract_subreddit_name url = Returned name) /\
        ((forall before name after,
            path_parts <> before ++ "r" :: name :: after) ->
         extract_subreddit_name url = Returned url))).
Proof.
  split.
  - intros rest ->. apply extract_subreddit_name_shorthand.
  - intros Hs. split.
    + intros e He. unfold extract_subreddit_name. rewrite Hs, He. reflexivity.
    + intros path Hp path_parts. rewrite (extract_subreddit_name_url _ _ Hs Hp).
      fold path_parts. split.
      * intros before name after Hparts Hnin.
        rewrite Hparts, (list_index_first _ _ _ Hnin).
        now rewrite (nth_error_after _ before "r" (name :: after) 0).
      * intros Hno. destruct (list_index "r" path_parts) as [i |] eqn:Hi;
          [| reflexivity].
        destruct (nth_error path_parts (i + 1)) as [name |] eqn:Hn;
          [| reflexivity].
        destruct (list_index_split _ _ _ Hi) as (before & after & Hparts & Hlen & _).
        subst i. rewrite Hparts in Hn.
        rewrite (nth_error_after _ before "r" after 0) in Hn.
        destruct after as [| name' after]; [discriminate |].
        injection Hn as ->. now elim (Hno before name after).
Qed.

(** C7, amended: the name is non-empty whenever the input is neither
    empty nor the bare shorthand prefix and no marker segment of the URL
    path is directly followed by an empty segment. *)
Theorem extract_subreddit_name_nonempty (url name : string) :
  extract_subreddit_name url = Returned name ->
  url <> EmptyString ->
  url <> "r/" ->
  (forall path i,
     urlparse_path url = Returned path ->
     nth_error (split "/" (strip_chars "/" path)) i = Some "r" ->
     nth_error (split "/" (strip_chars "/" path)) (S i) <> Some EmptyString) ->
  name <> EmptyString.
Proof.
  intros Hres Hne Hnp Hseg ->.
  destruct (startswith "r/" url) eqn:Hs.
  - pose proof (startswith_inv _ _ Hs) as Hurl. simpl String.length in Hurl.
    assert (Hd : Returned (drop 2 url) = Returned EmptyString).
    { rewrite <- Hres. rewrite Hurl at 2.
      now rewrite extract_subreddit_name_shorthand. }
    assert (Hd' : drop 2 url = EmptyString) by congruence.
    rewrite Hd' in Hurl. now elim Hnp.
  - destruct (urlparse_path url) as [path | e] eqn:Hp.
    + rewrite (extract_subreddit_name_url _ _ Hs Hp) in Hres.
      destruct (list_index "r" (split "/" (strip_chars "/" path))) as [i |] eqn:Hi.
      * destruct (list_index_split _ _ _ Hi) as (before & after & Hparts & Hlen & _).
        apply (Hseg path i eq_refl).
        { rewrite Hparts, <- Hlen. apply nth_error_at. }
        rewrite Nat.add_1_r in Hres.
        destruct (nth_error _ (S i)) as [name |];
          injection Hres as E; [now rewrite E | now elim Hne].
      * injection Hres as E. now elim Hne.
    + unfold extract_subreddit_name in Hres. rewrite Hs, Hp in Hres. discriminate.
Qed.

End ParserFacts.

(** ** Trimming *)

Lemma lstrip_by_head (p : ascii -> bool) (s : string) :
  lstrip_by p s = EmptyString \/
  exists c s', lstrip_by p s = String c s' /\ p c = false.
Proof.
  induction s as [| c s IH]; simpl; [now left |].
  destruct (p c) eqn:E; [exact IH |].
  right. now exists c, s.
Qed.

Lemma lstrip_by_fixed (p : ascii -> bool) (c : ascii) (s : string) :
  p c = false -> lstrip_by p (String c s) = String c s.
Proof. intros E. simpl. now rewrite E. Qed.

Lemma rstrip_by_head (p : ascii -> bool) (c : ascii) (s : string) :
  p c = false -> exists r, rstrip_by p (String c s) = String c r.
Proof.
  intros E. simpl. destruct (rstrip_by p s) as [| d r].
  - rewrite E. now exists EmptyString.
  - now exists (String d r).
Qed.

Lemma rstrip_by_idempotent (p : ascii -> bool) (s : string) :
  rstrip_by p (rstrip_by p s) = rstrip_by p s.
Proof.
  induction s as [| c s IH]; simpl; [reflexivity |].
  destruct (rstrip_by p s) as [| d r] eqn:E.
  - destruct (p c) eqn:Ec; simpl; [reflexivity | now rewrite Ec].
  - change (rstrip_by p (String c (String d r))) with
      (match rstrip_by p (String d r) with
       | EmptyString => if p c then EmptyString else String c EmptyString
       | String a r' => String c (String a r')
       end).
    now rewrite IH.
Qed.

Lemma strip_by_idempotent (p : ascii -> bool) (s : string) :
  strip_by p (strip_by p s) = strip_by p s.
Proof.
  unfold strip_by.
  destruct (lstrip_by_head p s) as [E | (c & s' & E & Hc)]; rewrite E.
  - reflexivity.
  - destruct (rstrip_by_head p c s' Hc) as (r & Er).
    rewrite Er, (lstrip_by_fixed p c r Hc), <- Er.
    apply rstrip_by_idempotent.
Qed.

Lemma strip_idempotent (s : string) : strip (strip s) = strip s.
Proof. apply strip_by_idempotent. Qed.

Lemma nonempty_true (s : string) : nonempty s = true <-> s <> EmptyString.
Proof.
  unfold nonempty. rewrite negb_true_iff. apply String.eqb_neq.
Qed.

Lemma clean_entry_strip (s : string) :
  nonempty (strip s) = true -> clean_entry (strip s).
Proof.
  intros H. split; [now apply nonempty_true | apply strip_idempotent].
Qed.

(** ** The comment-tree flattener *)

Lemma json_nested_ind (P : json -> Prop) :
  P JNull ->
  (forall b, P (JBool b)) ->
  (forall n, P (JInt n)) ->
  (forall nonzero, P (JFloat nonzero)) ->
  (forall s, P (JString s)) ->
  (forall items, Forall P items -> P (JList items)) ->
  (forall d, Forall (fun kv => P (snd kv)) d -> P (JDict d)) ->
  forall v, P v.
Proof.
  intros Hnull Hbool Hint Hfloat Hstr Hlist Hdict.
  fix IH 1. intros [| b | n | nz | s | items | d].
  - exact Hnull.
  - apply Hbool.
  - apply Hint.
  - apply Hfloat.
  - apply Hstr.
  - apply Hlist. induction items as [| x items IHitems]; constructor.
    + apply IH.
    + exact IHitems.
  - apply Hdict. induction d as [| [k v] d IHd]; constructor.
    + apply IH.
    + exact IHd.
Qed.

Lemma extract_comment_bodies_list (items : list json) :
  extract_comment_bodies (JList items) = extend_all items.
Proof.
  simpl. induction items as [| x items IH]; simpl; [reflexivity |].
  now rewrite IH.
Qed.

(** The body of the flattener on a dict, with the lookup of [replies]
    written as the source has it. *)
Lemma extract_comment_bodies_dict (d : list (string * json)) :
  extract_comment_bodies (JDict d) =
  outcome_bind (own_body d) (fun bodies =>
    match dict_get "replies" d with
    | Some replies =>
        if truthy replies
        then outcome_bind (iterate_replies replies)
               (fun more => Returned (bodies ++ more))
        else Returned bodies
    | None => Returned bodies
    end).
Proof.
  simpl. destruct (own_body d) as [bodies | e]; simpl; [| reflexivity].
  induction d as [| [k v] d IH]; simpl; [reflexivity |].
  destruct (String.eqb k "replies"); [| exact IH].
  destruct v as [| b | n | nz | s | items | d']; simpl; try reflexivity.
  - now destruct (n =? 0)%Z.
  - rewrite app_nil_r. now destruct (String.eqb s EmptyString).
  - destruct items as [| x items]; [simpl; now rewrite app_nil_r |].
    rewrite <- extract_comment_bodies_list. reflexivity.
  - rewrite app_nil_r. now destruct d'.
Qed.

Lemma extend_all_app (l1 l2 : list json) :
  extend_all (l1 ++ l2) =
  outcome_bind (extend_all l1) (fun a =>
  outcome_bind (extend_all l2) (fun b => Returned (a ++ b))).
Proof.
  induction l1 as [| x l1 IH]; simpl.
  - now destruct (extend_all l2).
  - destruct (extract_comment_bodies x) as [a |]; simpl; [| reflexivity].
    rewrite IH. destruct (extend_all l1) as [b |]; simpl; [| reflexivity].
    destruct (extend_all l2) as [c |]; simpl; [| reflexivity].
    now rewrite app_assoc.
Qed.

Lemma extract_comment_bodies_unrecognized (v : json) :
  unrecognized v -> extract_comment_bodies v = Returned [].
Proof. destruct v; simpl; intros H; try reflexivity; now elim H. Qed.

Lemma extend_all_returns (items : list json) :
  Forall (fun x => exists bodies, extract_comment_bodies x = Returned bodies) items ->
  exists bodies, extend_all items = Returned bodies.
Proof.
  induction 1 as [| x items (a & Ha) _ (b & Hb)]; simpl.
  - now exists [].
  - rewrite Ha, Hb. simpl. now exists (a ++ b).
Qed.

Lemma extend_all_returned_inv (items : list json) (bodies : list string) :
  extend_all items = Returned bodies ->
  Forall (fun x => exists a, extract_comment_bodies x = Returned a) items.
Proof.
  revert bodies. induction items as [| x items IH]; simpl; intros bodies H.
  - constructor.
  - destruct (extract_comment_bodies x) as [a |] eqn:Ha; [| discriminate].
    simpl in H. destruct (extend_all items) as [b |] eqn:Hb; [| discriminate].
    constructor; [now exists a | now apply (IH b)].
Qed.

Lemma dict_get_In (k : string) (d : list (string * json)) (v : json) :
  dict_get k d = Some v -> In (k, v) d.
Proof.
  induction d as [| [k' v'] d IH]; simpl; [discriminate |].
  destruct (String.eqb k' k) eqn:E.
  - apply String.eqb_eq in E. intros [= ->]. left. now subst.
  - intros H. right. now apply IH.
Qed.

Arguments extract_comment_bodies : simpl never.

Lemma own_body_returns (d : list (string * json)) :
  body_is_string d <-> exists bodies, own_body d = Returned bodies.
Proof.
  unfold body_is_string, own_body. split.
  - intros H. destruct (dict_get "body" d) as [v |]; [| now exists []].
    destruct (H v eq_refl) as (s & ->).
    destruct (nonempty (strip s) && negb (list_in (strip s) comment_tombstones));
      eauto.
  - intros (bodies & H) v Hv. rewrite Hv in H.
    destruct v; try discriminate. eauto.
Qed.

Lemma flattenable_list_inv (items : list json) :
  flattenable (JList items) -> Forall flattenable items.
Proof. intros H. inversion H; subst; [now elim H0 | assumption]. Qed.

Lemma flattenable_returns (data : json) :
  flattenable data -> exists bodies, extract_comment_bodies data = Returned bodies.
Proof.
  induction data as [| b | n | nz | s | items IH | d IH] using json_nested_ind;
    intros Hf; try (now exists []).
  - rewrite extract_comment_bodies_list. apply extend_all_returns.
    apply flattenable_list_inv in Hf. rewrite Forall_forall in *.
    intros x Hx. apply (IH x Hx), (Hf x Hx).
  - inversion Hf as [v Hu | | d0 Hbody Hiter Hitems]; subst; [now elim Hu |].
    rewrite extract_comment_bodies_dict.
    apply own_body_returns in Hbody as (bodies & ->). simpl.
    destruct (dict_get "replies" d) as [r |] eqn:Hr; [| now exists bodies].
    destruct (truthy r) eqn:Ht; [| now exists bodies].
    specialize (Hiter r eq_refl Ht).
    destruct r as [| | | | s | items | d']; try now elim Hiter.
    + simpl. eauto.
    + rewrite Forall_forall in IH.
      destruct (IH ("replies", JList items) (dict_get_In _ _ _ Hr)) as (more & Hm).
      { apply flattenable_list. now apply Hitems. }
      simpl snd in Hm. rewrite extract_comment_bodies_list in Hm. simpl. rewrite Hm. simpl. eauto.
    + simpl. eauto.
Qed.

Lemma returns_flattenable (data : json) (bodies : list string) :
  extract_comment_bodies data = Returned bodies -> flattenable data.
Proof.
  revert bodies.
  induction data as [| b | n | nz | s | items IH | d IH] using json_nested_ind;
    intros bodies H; try (now apply flattenable_other).
  - apply flattenable_list. rewrite extract_comment_bodies_list in H.
    apply extend_all_returned_inv in H. rewrite Forall_forall in *.
    intros x Hx. destruct (H x Hx) as (a & Ha). apply (IH x Hx a Ha).
  - rewrite extract_comment_bodies_dict in H.
    destruct (own_body d) as [own |] eqn:Hown; [| discriminate]. simpl in H.
    apply flattenable_dict.
    + apply own_body_returns. eauto.
    + intros r Hr Ht. rewrite Hr, Ht in H.
      destruct r; simpl in H; try discriminate; exact I.
    + intros items Hr. rewrite Forall_forall in IH.
      apply flattenable_list_inv.
      rewrite Hr in H. destruct (truthy (JList items)) eqn:Ht.
      * simpl iterate_replies in H.
        destruct (extend_all items) as [more |] eqn:Hm; [| discriminate].
        apply (IH ("replies", JList items) (dict_get_In _ _ _ Hr) more).
        simpl snd. now rewrite extract_comment_bodies_list.
      * destruct items; [apply flattenable_list; constructor | discriminate].
Qed.

(** C3, amended: the flattener returns a list of strings exactly on the
    flattenable values, those in which every visited dict has a string
    body (or none) and replies that are false or iterable (or none); a
    value that is neither a dict nor a list contributes nothing, also
    among its siblings. *)
Theorem extract_comment_bodies_flattenable :
  (forall data,
     flattenable data <->
     exists bodies, extract_comment_bodies data = Returned bodies) /\
  (forall v, unrecognized v -> extract_comment_bodies v = Returned []) /\
  (forall v before after,
     unrecognized v ->
     extract_comment_bodies (JList (before ++ v :: after)) =
     extract_comment_bodies (JList (before ++ after))).
Proof.
  split; [| split].
  - intros data. split; [apply flattenable_returns |].
    intros (bodies & H). now apply (returns_flattenable data bodies).
  - apply extract_comment_bodies_unrecognized.
  - intros v before after Hu.
    rewrite !extract_comment_bodies_list, !extend_all_app. simpl.
    rewrite (extract_comment_bodies_unrecognized v Hu). simpl.
    destruct (extend_all before); simpl; [| reflexivity].
    now destruct (extend_all after).
Qed.

(** Every body the flattener yields is trimmed, non-empty and no
    tombstone. *)
Lemma own_body_clean (d : list (string * json)) (bodies : list string) :
  own_body d = Returned bodies ->
  Forall (fun b => clean_entry b /\ keep_comment_body b = true) bodies.
Proof.
  unfold own_body. destruct (dict_get "body" d) as [[| | | | s | |] |];
    try discriminate; [| intros [= <-]; constructor].
  destruct (nonempty (strip s) && negb (list_in (strip s) comment_tombstones)) eqn:E;
    intros [= <-]; constructor; [| constructor].
  split; [| exact E].
  apply andb_true_iff in E as [E _]. now apply clean_entry_strip.
Qed.

Lemma extend_all_Forall (P : string -> Prop) (items : list json) :
  Forall (fun x => forall a, extract_comment_bodies x = Returned a -> Forall P a) items ->
  forall bodies, extend_all items = Returned bodies -> Forall P bodies.
Proof.
  induction 1 as [| x items Hx _ IH]; simpl; intros bodies H.
  - injection H as <-. constructor.
  - destruct (extract_comment_bodies x) as [a |]; [| discriminate]. simpl in H.
    destruct (extend_all items) as [b |]; [| discriminate]. injection H as <-.
    apply Forall_app. split; [now apply Hx | now apply IH].
Qed.

Lemma extract_comment_bodies_clean (data : json) (bodies : list string) :
  extract_comment_bodies data = Returned bodies ->
  Forall (fun b => clean_entry b /\ keep_comment_body b = true) bodies.
Proof.
  revert bodies.
  induction data as [| b | n | nz | s | items IH | d IH] using json_nested_ind;
    intros bodies H; try (injection H as <-; constructor).
  - rewrite extract_comment_bodies_list in H.
    now apply (extend_all_Forall _ items).
  - rewrite extract_comment_bodies_dict in H.
    destruct (own_body d) as [own |] eqn:Hown; [| discriminate]. simpl in H.
    pose proof (own_body_clean d own Hown) as Hclean.
    destruct (dict_get "replies" d) as [r |] eqn:Hr; [| now injection H as <-].
    destruct (truthy r); [| now injection H as <-].
    destruct (iterate_replies r) as [more |] eqn:Hm; [| discriminate].
    injection H as <-. apply Forall_app. split; [exact Hclean |].
    rewrite Forall_forall in IH.
    specialize (IH ("replies", r) (dict_get_In _ _ _ Hr)). simpl in IH.
    destruct r; simpl in Hm; try discriminate;
      try (injection Hm as <-; constructor).
    apply IH. now rewrite extract_comment_bodies_list.
Qed.

(** *** The flattener on a tree of the expected shape *)

Lemma CommentNode_nested_ind (P : CommentNode -> Prop) :
  (forall body replies, Forall P replies -> P (Comment body replies)) ->
  forall n, P n.
Proof.
  intros Hnode. fix IH 1. intros [body replies]. apply Hnode.
  induction replies as [| r replies IHr]; constructor; [apply IH | exact IHr].
Qed.

Lemma emitted_bodies_app (l1 l2 : list string) :
  emitted_bodies (l1 ++ l2) = emitted_bodies l1 ++ emitted_bodies l2.
Proof. unfold emitted_bodies. now rewrite map_app, filter_app. Qed.

Lemma extend_all_encoded (replies : list CommentNode) :
  Forall (fun n => extract_comment_bodies (encode_comment n) =
                   Returned (emitted_bodies (bodies_preorder n))) replies ->
  extend_all (map encode_comment replies) =
  Returned (emitted_bodies (flat_map bodies_preorder replies)).
Proof.
  induction 1 as [| n replies Hn _ IH]; simpl; [reflexivity |].
  rewrite Hn, IH. simpl. now rewrite emitted_bodies_app.
Qed.

Lemma own_body_of_body (b : string) (rest : list (string * json)) :
  own_body (("body", JString b) :: rest) = Returned (emitted_bodies [b]).
Proof.
  unfold own_body, emitted_bodies. cbn [dict_get map filter].
  rewrite String.eqb_refl. unfold keep_comment_body.
  now destruct (nonempty (strip b) && negb (list_in (strip b) comment_tombstones)).
Qed.

Lemma replies_of_encoded (items : list json) (bodies : list string) :
  (if truthy (JList items)
   then outcome_bind (iterate_replies (JList items))
          (fun more => Returned (bodies ++ more))
   else Returned bodies) =
  outcome_bind (extend_all items) (fun more => Returned (bodies ++ more)).
Proof.
  destruct items as [| x items]; [| reflexivity].
  cbn. now rewrite app_nil_r.
Qed.

Lemma extract_comment_bodies_preorder (n : CommentNode) :
  extract_comment_bodies (encode_comment n) =
  Returned (emitted_bodies (bodies_preorder n)).
Proof.
  induction n as [body replies IH] using CommentNode_nested_ind.
  pose proof (extend_all_encoded replies IH) as Hall.
  cbn [encode_comment bodies_preorder]. rewrite extract_comment_bodies_dict.
  rewrite emitted_bodies_app.
  destruct body as [b |]; cbn [app].
  - rewrite own_body_of_body. cbn [outcome_bind].
    change (dict_get "replies"
              [("body", JString b);
               ("replies", JList (map encode_comment replies))])
      with (Some (JList (map encode_comment replies))).
    cbv beta iota. rewrite replies_of_encoded, Hall. reflexivity.
  - change (own_body [("replies", JList (map encode_comment replies))])
      with (Returned (@nil string)).
    cbn [outcome_bind].
    change (dict_get "replies" [("replies", JList (map encode_comment replies))])
      with (Some (JList (map encode_comment replies))).
    cbv beta iota. rewrite replies_of_encoded, Hall. reflexivity.
Qed.

Lemma extract_comment_bodies_forest (roots : list CommentNode) :
  extract_comment_bodies (JList (map encode_comment roots)) =
  Returned (emitted_bodies (flat_map bodies_preorder roots)).
Proof.
  rewrite extract_comment_bodies_list. apply extend_all_encoded.
  rewrite Forall_forall. intros n _. apply extract_comment_bodies_preorder.
Qed.

(** ** The listing id extraction *)

Lemma alnum_run_prefix (s : string) :
  s = (alnum_run s ++ drop (String.length (alnum_run s)) s)%string.
Proof.
  induction s as [| c s IH]; simpl; [reflexivity |].
  destruct (is_alnum c); simpl; [now rewrite <- IH | reflexivity].
Qed.

Lemma alnum_run_all (s : string) : all_chars is_alnum (alnum_run s) = true.
Proof.
  induction s as [| c s IH]; simpl; [reflexivity |].
  destruct (is_alnum c) eqn:E; simpl; [now rewrite E | reflexivity].
Qed.

Lemma alnum_run_token (tok rest : string) :
  all_chars is_alnum tok = true ->
  alnum_run (tok ++ String "/" rest) = tok.
Proof.
  induction tok as [| c tok IH]; simpl; intros H; [reflexivity |].
  apply andb_true_iff in H as [Hc Htok]. now rewrite Hc, IH.
Qed.

Lemma append_assoc (a b c : string) :
  ((a ++ b) ++ c)%string = (a ++ (b ++ c))%string.
Proof. induction a as [| x a IH]; simpl; [reflexivity | now rewrite IH]. Qed.

Lemma match_at_sound (s tok : string) :
  match_at s = Some tok ->
  tok <> EmptyString /\ all_chars is_alnum tok = true /\
  startswith (comments_link tok) s = true.
Proof.
  unfold match_at. destruct (startswith comments_prefix s) eqn:Hp; [| discriminate].
  apply startswith_inv in Hp.
  set (after := drop (String.length comments_prefix) s) in *.
  pose proof (alnum_run_prefix after) as Hrun.
  pose proof (alnum_run_all after) as Hall.
  destruct (alnum_run after) as [| c run] eqn:Er; [discriminate |].
  destruct (drop (String.length (String c run)) after) as [| d rest] eqn:Ed;
    [discriminate |].
  destruct (Ascii.eqb d "/") eqn:Es; [| discriminate].
  apply Ascii.eqb_eq in Es. subst d. intros [= <-].
  split; [discriminate |]. split; [exact Hall |].
  rewrite Hp, Hrun. unfold comments_link.
  change (String "/" rest) with ("/" ++ rest)%string.
  rewrite <- (append_assoc (String c run) "/" rest).
  rewrite <- (append_assoc comments_prefix (String c run ++ "/") rest).
  apply startswith_append.
Qed.

Lemma match_at_link (tok rest : string) :
  tok <> EmptyString -> all_chars is_alnum tok = true ->
  match_at (comments_link tok ++ rest) = Some tok.
Proof.
  intros Hne Hall. unfold match_at, comments_link.
  rewrite !append_assoc. rewrite startswith_append, drop_append.
  change ("/" ++ rest)%string with (String "/" rest).
  rewrite (alnum_run_token tok rest Hall).
  destruct tok as [| a tok]; [now elim Hne |].
  now rewrite drop_append.
Qed.

Lemma contains_suffix (needle s : string) (c : ascii) :
  contains needle s = true -> contains needle (String c s) = true.
Proof.
  intros H. change (contains needle (String c s))
    with (startswith needle (String c s) || contains needle s).
  rewrite H. apply orb_true_r.
Qed.

Lemma contains_startswith (needle s : string) :
  startswith needle s = true -> contains needle s = true.
Proof. intros H. destruct s; simpl; now rewrite H. Qed.

Lemma findall_from_sound (s : string) (skip : nat) (tok : string) :
  In tok (findall_from skip s) ->
  tok <> EmptyString /\ all_chars is_alnum tok = true /\
  contains (comments_link tok) s = true.
Proof.
  revert skip. induction s as [| c s IH]; intros skip; [intros [] |].
  assert (Hrest : forall k, In tok (findall_from k s) ->
            tok <> EmptyString /\ all_chars is_alnum tok = true /\
            contains (comments_link tok) (String c s) = true).
  { intros k Hk. destruct (IH k Hk) as (H1 & H2 & H3).
    repeat split; trivial. now apply contains_suffix. }
  cbn [findall_from]. destruct skip as [| k]; [| apply Hrest].
  destruct (match_at (String c s)) as [tok' |] eqn:Hm; [| apply Hrest].
  intros [-> | Hin]; [| now apply (Hrest _ Hin)].
  destruct (match_at_sound _ _ Hm) as (H1 & H2 & H3).
  repeat split; trivial. now apply contains_startswith.
Qed.

Lemma findall_from_skip (a rest : string) :
  findall_from (String.length a) (a ++ rest) = findall_from O rest.
Proof.
  induction a as [| c a IH]; simpl; [now destruct rest | exact IH].
Qed.

(** The scan is the search from left to right: when no match begins
    before a link, the link is the first match, and the search goes on
    behind it. *)
Lemma findall_first_match (before tok rest : string) :
  (forall k, k < String.length before ->
             match_at (drop k (before ++ comments_link tok ++ rest)) = None) ->
  tok <> EmptyString -> all_chars is_alnum tok = true ->
  findall (before ++ comments_link tok ++ rest) = tok :: findall rest.
Proof.
  intros Hnone Hne Hall. unfold findall.
  induction before as [| c before IH].
  - cbn [append]. pose proof (match_at_link tok rest Hne Hall) as Hm.
    unfold comments_link in *. rewrite !append_assoc in *.
    cbn [comments_prefix append findall_from] in *. rewrite Hm. f_equal.
    change (String.length comments_prefix + String.length tok)
      with (String.length ("comments/") + S (String.length tok)).
    assert (Hlen : String.length "comments/" + S (String.length tok)
                   = String.length ("comments/" ++ tok ++ "/")).
    { cbn [String.length append plus]. do 9 f_equal.
      clear. induction tok as [| x tok IH]; simpl; [reflexivity | now rewrite IH]. }
    rewrite Hlen.
    rewrite <- (findall_from_skip ("comments/" ++ tok ++ "/") rest).
    now rewrite !append_assoc.
  - cbn [append findall_from].
    pose proof (Hnone 0 (Nat.lt_0_succ _)) as H0. cbn [drop append] in H0.
    rewrite H0. apply IH. intros k Hk.
    apply (Hnone (S k)). simpl. lia.
Qed.

Lemma findall_no_match (text : string) :
  (forall k, match_at (drop k text) = None) -> findall text = [].
Proof.
  unfold findall. induction text as [| c text IH]; intros Hnone; [reflexivity |].
  cbn [findall_from]. pose proof (Hnone 0) as H0. cbn [drop] in H0.
  rewrite H0. apply IH.
  intros k. apply (Hnone (S k)).
Qed.

(** *** [dict.fromkeys] keeps the ids at their first occurrence *)

Lemma list_in_In (x : string) (l : list string) : list_in x l = true <-> In x l.
Proof.
  induction l as [| y l IH]; simpl; [split; [discriminate | intros []] |].
  rewrite orb_true_iff, IH, String.eqb_eq. reflexivity.
Qed.

Lemma list_in_app (x : string) (l1 l2 : list string) :
  list_in x (l1 ++ l2) = list_in x l1 || list_in x l2.
Proof.
  induction l1 as [| y l1 IH]; simpl; [reflexivity |].
  now rewrite IH, orb_assoc.
Qed.

Lemma filter_filter (A : Type) (f g : A -> bool) (l : list A) :
  filter f (filter g l) = filter (fun x => g x && f x) l.
Proof.
  induction l as [| x l IH]; simpl; [reflexivity |].
  destruct (g x); simpl; [destruct (f x); now rewrite IH | exact IH].
Qed.

Lemma fold_dict_insert_key (l keys : list string) :
  fold_left dict_insert_key l keys =
  keys ++ filter (fun y => negb (list_in y keys)) (first_seen l).
Proof.
  revert keys. induction l as [| x l IH]; intros keys; simpl.
  - now rewrite app_nil_r.
  - rewrite IH. unfold dict_insert_key. rewrite filter_filter.
    destruct (list_in x keys) eqn:Hx; simpl.
    + f_equal. apply filter_ext_in. intros y _.
      destruct (String.eqb y x) eqn:E; simpl; [| reflexivity].
      apply String.eqb_eq in E. subst y. now rewrite Hx.
    + rewrite <- app_assoc. simpl. do 2 f_equal.
      apply filter_ext_in. intros y _. rewrite list_in_app. simpl.
      rewrite orb_false_r, negb_orb, String.eqb_sym.
      apply andb_comm.
Qed.

Lemma dict_fromkeys_first_seen (l : list string) :
  dict_fromkeys l = first_seen l.
Proof.
  unfold dict_fromkeys. rewrite fold_dict_insert_key. simpl.
  induction (first_seen l) as [| y r IH]; simpl; [reflexivity | now rewrite IH].
Qed.

Lemma first_seen_In (l : list string) (x : string) :
  In x (first_seen l) <-> In x l.
Proof.
  induction l as [| y l IH]; simpl; [reflexivity |].
  rewrite filter_In, IH, negb_true_iff, String.eqb_neq.
  destruct (string_dec y x) as [-> | Hne]; [tauto |].
  split; [tauto |]. intros [H | H]; [now elim Hne | right]. split; [exact H | congruence].
Qed.

Lemma first_seen_NoDup (l : list string) : NoDup (first_seen l).
Proof.
  induction l as [| y l IH]; simpl; constructor.
  - rewrite filter_In, String.eqb_refl. now intros [_ H].
  - now apply NoDup_filter.
Qed.

Lemma first_before_cons (x y z : string) (l : list string) :
  first_before l y z -> y <> x -> z <> x -> first_before (x :: l) y z.
Proof.
  intros (i & j & Hi & Hj & Hlt) Hy Hz. exists (S i), (S j). simpl.
  apply String.eqb_neq in Hy, Hz.
  rewrite (String.eqb_sym x y), (String.eqb_sym x z), Hy, Hz, Hi, Hj.
  repeat split. lia.
Qed.

Lemma first_before_head (x z : string) (l : list string) :
  In z l -> z <> x -> first_before (x :: l) x z.
Proof.
  intros Hin Hz. destruct (list_index z l) as [j |] eqn:Hj.
  - exists 0, (S j). simpl. apply String.eqb_neq in Hz.
    rewrite String.eqb_refl, (String.eqb_sym x z), Hz, Hj.
    repeat split. lia.
  - now elim (list_index_none _ _ Hj).
Qed.

Lemma first_seen_sorted (l : list string) :
  StronglySorted (first_before l) (first_seen l).
Proof.
  induction l as [| x l IH]; simpl; constructor.
  - induction IH as [| y r Hr IHr Hy]; simpl; [constructor |].
    destruct (String.eqb y x) eqn:E; simpl; [exact IHr |].
    apply String.eqb_neq in E. constructor; [exact IHr |].
    rewrite Forall_forall in *. intros z Hz. apply filter_In in Hz as [Hz Hzx].
    apply negb_true_iff, String.eqb_neq in Hzx.
    apply first_before_cons; auto.
  - rewrite Forall_forall. intros z Hz. apply filter_In in Hz as [Hz Hzx].
    apply negb_true_iff, String.eqb_neq in Hzx.
    apply first_before_head; [now apply first_seen_In | exact Hzx].
Qed.

Lemma StronglySorted_prefix (A : Type) (R : A -> A -> Prop) (l1 l2 : list A) :
  StronglySorted R (l1 ++ l2) -> StronglySorted R l1.
Proof.
  induction l1 as [| x l1 IH]; simpl; intros H; [constructor |].
  inversion H as [| y r Hr Hy]; subst. constructor; [now apply IH |].
  now apply Forall_app in Hy as [Hy _].
Qed.

Lemma slice_to_nonneg (A : Type) (l : list A) (n : Z) :
  (0 <= n)%Z -> slice_to l n = firstn (Z.to_nat n) l.
Proof.
  intros H. unfold slice_to. now apply Z.leb_le in H as ->.
Qed.

(** *** Links between texts without a slash *)

Lemma match_at_not_slash (c : ascii) (s : string) :
  Ascii.eqb c "/" = false -> match_at (String c s) = None.
Proof.
  intros H. unfold match_at. cbn [comments_prefix startswith].
  now rewrite Ascii.eqb_sym, H.
Qed.

Lemma match_at_in_filler (filler rest : string) (k : nat) :
  slash_free filler = true -> k < String.length filler ->
  match_at (drop k (filler ++ rest)) = None.
Proof.
  revert k. induction filler as [| c filler IH]; intros k Hf Hk; [simpl in Hk; lia |].
  cbn [slash_free all_chars] in Hf. apply andb_true_iff in Hf as [Hc Hf].
  apply negb_true_iff in Hc.
  destruct k as [| k]; cbn [append drop].
  - now apply match_at_not_slash.
  - apply IH; [exact Hf | simpl in Hk; lia].
Qed.

Lemma findall_filler_link (filler tok rest : string) :
  slash_free filler = true ->
  tok <> EmptyString -> all_chars is_alnum tok = true ->
  findall (filler ++ comments_link tok ++ rest) = tok :: findall rest.
Proof.
  intros Hf Hne Hall. apply findall_first_match; trivial.
  intros k Hk. now apply match_at_in_filler.
Qed.

Lemma findall_slash_free (filler : string) :
  slash_free filler = true -> findall filler = [].
Proof.
  intros Hf. apply findall_no_match. intros k.
  destruct (Nat.lt_ge_cases k (String.length filler)) as [Hk | Hk].
  - rewrite <- (match_at_in_filler filler EmptyString k Hf Hk).
    f_equal. f_equal. clear. induction filler as [| c f IH]; simpl; congruence.
  - assert (Hd : drop k filler = EmptyString).
    { clear Hf. revert k Hk. induction filler as [| c f IH]; intros [| k] Hk;
        simpl in *; trivial; [lia | apply IH; lia]. }
    now rewrite Hd.
Qed.

(** C5: for a cap that is not negative the extractor returns the tokens
    of the matches of the pattern (the matches are found from left to
    right and do not overlap), each kept at its first occurrence, in the
    order of these first occurrences, cut to the first [cap] of them; a
    listing with the link of abc123 twice and that of xyz789 once gives
    abc123, xyz789 under the cap 10. *)
Theorem extract_post_ids_spec (text : string) (cap : Z) :
  (0 <= cap)%Z ->
  let post_id_matches := findall text in
  let post_ids := extract_post_ids text cap in
  post_ids = firstn (Z.to_nat cap) (first_seen post_id_matches) /\
  (forall id, In id post_id_matches ->
     id <> EmptyString /\ all_chars is_alnum id = true /\
     contains (comments_link id) text = true) /\
  (forall id, In id (first_seen post_id_matches) <-> In id post_id_matches) /\
  (exists dropped, first_seen post_id_matches = post_ids ++ dropped) /\
  NoDup post_ids /\
  StronglySorted (first_before post_id_matches) post_ids /\
  (Z.of_nat (List.length post_ids) <= cap)%Z /\
  extract_post_ids sample_listing 10 = ["abc123"; "xyz789"] /\
  (forall a b c d,
     slash_free a = true -> slash_free b = true ->
     slash_free c = true -> slash_free d = true ->
     extract_post_ids
       (a ++ comments_link "abc123" ++ b ++ comments_link "abc123" ++ c
          ++ comments_link "xyz789" ++ d) 10
     = ["abc123"; "xyz789"]).
Proof.
  intros Hcap post_id_matches post_ids.
  assert (Hids : post_ids = firstn (Z.to_nat cap) (first_seen post_id_matches)).
  { unfold post_ids, extract_post_ids. fold post_id_matches.
    now rewrite dict_fromkeys_first_seen, slice_to_nonneg. }
  assert (Hsplit : first_seen post_id_matches =
                   post_ids ++ skipn (Z.to_nat cap) (first_seen post_id_matches)).
  { rewrite Hids. symmetry. apply firstn_skipn. }
  split; [exact Hids |].
  split; [| split; [| split; [| split; [| split; [| split; [| split]]]]]].
  - intros id Hin. now apply (findall_from_sound text 0 id).
  - intros id. apply first_seen_In.
  - eexists. exact Hsplit.
  - apply (NoDup_app_remove_r _ (skipn (Z.to_nat cap) (first_seen post_id_matches))).
    rewrite <- Hsplit. apply first_seen_NoDup.
  - apply (StronglySorted_prefix _ _ _ (skipn (Z.to_nat cap) (first_seen post_id_matches))).
    rewrite <- Hsplit. apply first_seen_sorted.
  - rewrite Hids. pose proof (firstn_le_length (Z.to_nat cap) (first_seen post_id_matches)).
    lia.
  - reflexivity.
  - intros a b c d Ha Hb Hc Hd. unfold extract_post_ids.
    rewrite (findall_filler_link a "abc123"); [| exact Ha | discriminate | reflexivity].
    rewrite (findall_filler_link b "abc123"); [| exact Hb | discriminate | reflexivity].
    rewrite (findall_filler_link c "xyz789"); [| exact Hc | discriminate | reflexivity].
    rewrite (findall_slash_free d Hd). reflexivity.
Qed.

(** ** The loop over the posts *)

Arguments strip : simpl never.
Arguments lower : simpl never.
Arguments contains : simpl never.
Arguments list_in : simpl never.
Arguments nonempty : simpl never.

Section RunFacts.

Context {C : Collaborators}.

Lemma state_append_nil (st : state) : state_append st [] = st.
Proof. destruct st. unfold state_append. simpl. now rewrite app_nil_r. Qed.

Lemma state_append_app (st : state) (a b : list string) :
  state_append (state_append st a) b = state_append st (a ++ b).
Proof. unfold state_append. simpl. now rewrite app_assoc. Qed.

Lemma append_text_run (s : string) (st : state) :
  append_text s st = (Returned tt, state_append st [s]).
Proof. reflexivity. Qed.

Lemma ret_run (A : Type) (a : A) (st : state) :
  ret a st = (Returned a, state_append st []).
Proof. now rewrite state_append_nil. Qed.

Lemma raise_run (A : Type) (e : py_exception) (st : state) :
  raise (A := A) e st = (Raised e, state_append st []).
Proof. now rewrite state_append_nil. Qed.

(** Lines 88-91. *)
Lemma collect_title_run (post_data : json) (st : state) :
  exists o,
    collect_title post_data st = (o, state_append st (title_entries post_data)) /\
    o <> Raised JSONDecodeError /\
    (forall d, post_data = JDict d ->
               (o = Returned tt <-> title_is_text d = true)).
Proof.
  destruct post_data as [| b | n | nz | s | items | d]; cbn [collect_title title_entries];
    try (exists (Raised TypeError); rewrite raise_run; repeat split; discriminate).
  - destruct (contains "title" s);
      [exists (Raised TypeError); rewrite raise_run
      | exists (Returned tt); rewrite ret_run]; repeat split; discriminate.
  - destruct (existsb _ items);
      [exists (Raised TypeError); rewrite raise_run
      | exists (Returned tt); rewrite ret_run]; repeat split; discriminate.
  - destruct (dict_get "title" d) as [[| b | n | nz | s | items | d'] |] eqn:E;
      try (exists (Raised AttributeError); rewrite raise_run;
           split; [reflexivity |]; split; [discriminate |];
           intros d0 [= <-]; unfold title_is_text; rewrite E;
           split; discriminate).
    + exists (Returned tt).
      destruct (nonempty (strip s)); [rewrite append_text_run | rewrite ret_run];
        (split; [reflexivity |]; split; [discriminate |]);
        intros d0 [= <-]; unfold title_is_text; rewrite E; split; reflexivity.
    + exists (Returned tt). rewrite ret_run.
      split; [reflexivity |]. split; [discriminate |].
      intros d0 [= <-]; unfold title_is_text; rewrite E; split; reflexivity.
Qed.

(** Lines 94-96. *)
Lemma collect_body_run (post_data : json) (st : state) :
  exists o,
    collect_body post_data st = (o, state_append st (body_entries post_data)) /\
    o <> Raised JSONDecodeError /\
    (o = Returned tt <->
     exists d, post_data = JDict d /\ body_is_text d = true).
Proof.
  destruct post_data as [| b | n | nz | s | items | d]; cbn [collect_body body_entries];
    try (exists (Raised AttributeError); rewrite raise_run;
         split; [reflexivity |]; split; [discriminate |];
         split; [intros H; discriminate H | intros (d & Hd & _); discriminate Hd]).
  assert (Hother : forall v, body_text d = v ->
            (forall s, v <> JString s) ->
            (match v with JString _ => false | _ => true end = true) ->
            exists o,
              (if truthy v then raise AttributeError else ret tt) st
              = (o, state_append st []) /\
              o <> Raised JSONDecodeError /\
              (o = Returned tt <->
               exists d0, JDict d = JDict d0 /\ body_is_text d0 = true)).
  { intros v Hb Hv _. destruct (truthy v) eqn:Ht.
    - exists (Raised AttributeError). rewrite raise_run.
      split; [reflexivity |]. split; [discriminate |].
      split; [intros H; discriminate H |].
      intros (d0 & Hd0 & H). injection Hd0 as <-.
      unfold body_is_text in H. rewrite Hb in H.
      destruct v; try (rewrite Ht in H; discriminate H). now elim (Hv s).
    - exists (Returned tt). rewrite ret_run.
      split; [reflexivity |]. split; [discriminate |].
      split; [| reflexivity]. intros _. exists d. split; [reflexivity |].
      unfold body_is_text. rewrite Hb.
      destruct v; try (now rewrite Ht). reflexivity. }
  destruct (body_text d) as [| b | n | nz | s | items | d'] eqn:Hb;
    try (apply (Hother _ eq_refl); [intros s0; discriminate | reflexivity]).
  clear Hother. exists (Returned tt).
  assert (Hs : (if nonempty (strip s) && negb (list_in (lower s) body_sentinels)
                then append_text (strip s) else ret tt) st
               = (Returned tt,
                  state_append st
                    (if nonempty (strip s) && negb (list_in (lower s) body_sentinels)
                     then [strip s] else []))).
  { destruct (nonempty (strip s) && negb (list_in (lower s) body_sentinels));
      [apply append_text_run | apply ret_run]. }
  split.
  - destruct (truthy (JString s)) eqn:Hne; [exact Hs |].
    apply negb_false_iff, String.eqb_eq in Hne. subst s.
    rewrite ret_run. reflexivity.
  - split; [discriminate |]. split; [| reflexivity].
    intros _. exists d. split; [reflexivity |].
    unfold body_is_text. now rewrite Hb.
Qed.

Lemma record_entries_collected (post_data : json) (title_done : bool) :
  (forall d, post_data = JDict d -> title_is_text d = title_done) ->
  record_entries post_data =
  title_entries post_data ++ (if title_done then body_entries post_data else []).
Proof.
  intros H. destruct post_data as [| b | n | nz | s | items | d];
    try (now destruct title_done).
  cbn [record_entries]. now rewrite (H d eq_refl).
Qed.

(** Lines 88-96. *)
Lemma collect_record_run (post_data : json) (st : state) :
  exists o,
    (collect_title post_data ;; collect_body post_data) st
    = (o, state_append st (record_entries post_data)) /\
    o <> Raised JSONDecodeError /\
    (o = Returned tt <-> record_collectable post_data = true).
Proof.
  destruct (collect_title_run post_data st) as (o1 & H1 & Hn1 & Hiff1).
  unfold bind. rewrite H1. destruct o1 as [[] | e].
  - destruct (collect_body_run post_data (state_append st (title_entries post_data)))
      as (o2 & H2 & Hn2 & Hiff2).
    exists o2. rewrite H2, state_append_app.
    rewrite (record_entries_collected post_data true).
    2:{ intros d Hd. now apply (Hiff1 d Hd). }
    split; [reflexivity |]. split; [exact Hn2 |].
    rewrite Hiff2. split.
    + intros (d & -> & Hb). cbn [record_collectable].
      rewrite Hb, (proj1 (Hiff1 d eq_refl) eq_refl). reflexivity.
    + destruct post_data; try discriminate. cbn [record_collectable].
      intros H. apply andb_true_iff in H as [_ Hb]. eauto.
  - exists (Raised e).
    rewrite (record_entries_collected post_data false), app_nil_r.
    2:{ intros d Hd. destruct (title_is_text d) eqn:Ht; [| reflexivity].
        apply (Hiff1 d Hd) in Ht. discriminate Ht. }
    split; [reflexivity |]. split; [exact Hn1 |].
    split; [intros H; discriminate H |].
    destruct post_data; try discriminate. cbn [record_collectable].
    intros H. apply andb_true_iff in H as [Ht _].
    apply (Hiff1 _ eq_refl) in Ht. discriminate Ht.
Qed.

(** Lines 84-102. *)
Lemma collect_content_run (post_full_text : string) (st : state) :
  exists o,
    collect_content post_full_text st
    = (o, state_append st
            match json_loads post_full_text with
            | Returned post_data => record_entries post_data
            | Raised _ => []
            end) /\
    (o = Returned tt <->
     match json_loads post_full_text with
     | Returned post_data => record_collectable post_data
     | Raised JSONDecodeError => true
     | Raised _ => false
     end = true).
Proof.
  unfold collect_content, try_except, bind, lift.
  destruct (json_loads post_full_text) as [post_data | e].
  - destruct (collect_record_run post_data st) as (o & H & Hn & Hiff).
    unfold bind in H. rewrite H. destruct o as [[] | e].
    + exists (Returned tt). split; [reflexivity | exact Hiff].
    + exists (Raised e). split; [| exact Hiff].
      destruct e; try rewrite raise_run, state_append_app, app_nil_r; try reflexivity.
      now elim Hn.
  - destruct e;
      [exists (Raised ValueError) | exists (Returned tt) | exists (Raised TypeError)
      | exists (Raised AttributeError) | exists (Raised OtherException)];
      rewrite ?raise_run, ?ret_run; (split; [reflexivity |]);
      split; intros H; try discriminate H; reflexivity.
Qed.

(** Lines 138-140, on bodies that are already trimmed and non-empty. *)
Lemma append_comment_bodies_run (comment_bodies : list string) (st : state) :
  Forall clean_entry comment_bodies ->
  append_comment_bodies comment_bodies st
  = (Returned tt, state_append st comment_bodies).
Proof.
  intros H. revert st. induction H as [| body rest [Hne Hstrip] _ IH]; intros st.
  - apply ret_run.
  - cbn [append_comment_bodies]. unfold bind.
    rewrite Hstrip. apply nonempty_true in Hne. rewrite Hne.
    rewrite append_text_run, IH, state_append_app. reflexivity.
Qed.

Lemma extract_comment_bodies_clean_entries (data : json) (bodies : list string) :
  extract_comment_bodies data = Returned bodies -> Forall clean_entry bodies.
Proof.
  intros H. apply extract_comment_bodies_clean in H.
  rewrite Forall_forall in *. intros b Hb. now apply H.
Qed.

(** Lines 105-151. *)
Lemma fetch_comments_run (post_id : string) (st : state) :
  fetch_comments post_id st =
  let '(sess, r) := call_tool (session st) (GetPostComments post_id) in
  (Returned tt,
   {| session := sess;
      reddit_texts := reddit_texts st ++ comment_entries r;
      trace := trace st ++ [Called (GetPostComments post_id)] |}).
Proof.
  unfold fetch_comments, try_except, bind, call, comment_entries.
  destruct (call_tool (session st) (GetPostComments post_id)) as [sess r].
  set (st1 := {| session := sess; reddit_texts := reddit_texts st;
                 trace := trace st ++ [Called (GetPostComments post_id)] |}).
  change {| session := sess;
            reddit_texts := reddit_texts st ++ ?new;
            trace := trace st ++ [Called (GetPostComments post_id)] |}
    with (state_append st1 new).
  destruct r as [[| [comments_text |] more] | e];
    rewrite ?ret_run; try reflexivity;
    [| cbv beta iota delta [first_text raise ret]; now rewrite state_append_nil].
  cbn [first_text]. unfold ret at 1. unfold lift.
  destruct (contains error_marker comments_text); cbn [negb];
    [now rewrite ret_run |].
  destruct (json_loads comments_text) as [comments_data | e].
  - destruct (extract_comment_bodies comments_data) as [comment_bodies | e] eqn:He.
    + rewrite append_comment_bodies_run; [reflexivity |].
      now apply (extract_comment_bodies_clean_entries comments_data).
    + destruct e; cbv beta iota delta [raise ret];
        now rewrite state_append_nil.
  - destruct e; cbv beta iota delta [raise ret];
      now rewrite state_append_nil.
Qed.

(** Lines 66-159: one turn of the loop, read off the two responses. *)
Lemma process_post_run (idx : nat) (post_id : string) (st : state) :
  process_post idx post_id st =
  let '(sess1, r1) := call_tool (session st) (GetPostContent post_id) in
  if content_completes r1 then
    let '(sess2, r2) := call_tool sess1 (GetPostComments post_id) in
    (Returned tt,
     {| session := sess2;
        reddit_texts := reddit_texts st ++ content_entries r1 ++ comment_entries r2;
        trace := trace st
                 ++ [Called (GetPostContent post_id); Called (GetPostComments post_id)]
                 ++ (if idx mod 10 =? 0 then [Slept] else []) |})
  else
    (Returned tt,
     {| session := sess1;
        reddit_texts := reddit_texts st ++ content_entries r1;
        trace := trace st ++ [Called (GetPostContent post_id)] |}).
Proof.
  unfold process_post, try_except. unfold bind at 1 2. unfold call at 1.
  destruct (call_tool (session st) (GetPostContent post_id)) as [sess1 r1].
  set (st1 := {| session := sess1; reddit_texts := reddit_texts st;
                 trace := trace st ++ [Called (GetPostContent post_id)] |}).
  assert (Hgo : forall new,
            (fetch_comments post_id ;; (if idx mod 10 =? 0 then sleep else ret tt))
              (state_append st1 new)
            = let '(sess2, r2) := call_tool sess1 (GetPostComments post_id) in
              (Returned tt,
               {| session := sess2;
                  reddit_texts := reddit_texts st ++ new ++ comment_entries r2;
                  trace := trace st
                           ++ [Called (GetPostContent post_id);
                               Called (GetPostComments post_id)]
                           ++ (if idx mod 10 =? 0 then [Slept] else []) |})).
  { intros new. unfold bind. rewrite fetch_comments_run. cbn [state_append st1 session].
    destruct (call_tool sess1 (GetPostComments post_id)) as [sess2 r2].
    cbn [reddit_texts trace].
    destruct (idx mod 10 =? 0); cbv [sleep log ret]; unfold state_append, st1;
      cbn [session reddit_texts trace];
      rewrite <- !app_assoc; cbn [app]; rewrite ?app_nil_r; reflexivity. }
  assert (Hstop : forall new (o : outcome unit),
            (o, state_append st1 new)
            = (o, {| session := sess1;
                     reddit_texts := reddit_texts st ++ new;
                     trace := trace st ++ [Called (GetPostContent post_id)] |}))
    by reflexivity.
  destruct r1 as [[| [post_full_text |] more] | e].
  - cbn [content_completes content_entries]. unfold ret at 1.
    rewrite <- (state_append_nil st1). rewrite (Hgo []).
    now destruct (call_tool sess1 (GetPostComments post_id)).
  - cbn [content_completes content_entries first_text].
    unfold bind at 1. unfold ret at 1.
    destruct (contains error_marker post_full_text); cbn [negb andb].
    + unfold ret. rewrite <- (state_append_nil st1). apply Hstop.
    + destruct (collect_content_run post_full_text st1) as (o & Hrun & Hiff).
      unfold bind at 1. rewrite Hrun.
      destruct o as [[] | e].
      * rewrite (proj1 Hiff eq_refl). unfold ret at 1.
        specialize (Hgo match json_loads post_full_text with
                        | Returned post_data => record_entries post_data
                        | Raised _ => []
                        end).
        rewrite Hgo.
        now destruct (call_tool sess1 (GetPostComments post_id)).
      * destruct (match json_loads post_full_text with
                  | Returned post_data => record_collectable post_data
                  | Raised JSONDecodeError => true
                  | Raised _ => false
                  end) eqn:Hc.
        { discriminate (proj2 Hiff eq_refl). }
        unfold ret. apply Hstop.
  - cbn [content_completes content_entries first_text].
    unfold bind, raise, ret. rewrite <- (state_append_nil st1). apply Hstop.
  - cbn [content_completes content_entries]. unfold ret.
    rewrite <- (state_append_nil st1). apply Hstop.
Qed.

Lemma title_entries_clean (post_data : json) :
  Forall clean_entry (title_entries post_data).
Proof.
  destruct post_data as [| | | | | | d]; try constructor. cbn [title_entries].
  destruct (dict_get "title" d) as [[| | | | s | |] |]; try constructor.
  destruct (nonempty (strip s)) eqn:E; constructor; [| constructor].
  now apply clean_entry_strip.
Qed.

Lemma body_entries_clean (post_data : json) :
  Forall clean_entry (body_entries post_data).
Proof.
  destruct post_data as [| | | | | | d]; try constructor. cbn [body_entries].
  destruct (body_text d) as [| | | | s | |]; try constructor.
  destruct (nonempty (strip s) && negb (list_in (lower s) body_sentinels)) eqn:E;
    constructor; [| constructor].
  apply andb_true_iff in E as [E _]. now apply clean_entry_strip.
Qed.

Lemma record_entries_clean (post_data : json) :
  Forall clean_entry (record_entries post_data).
Proof.
  destruct post_data as [| | | | | | d]; try constructor. cbn [record_entries].
  apply Forall_app. split; [apply title_entries_clean |].
  destruct (title_is_text d); [apply body_entries_clean | constructor].
Qed.

Lemma content_entries_clean (r : outcome (list content_block)) :
  Forall clean_entry (content_entries r).
Proof.
  destruct r as [[| [text |] more] | e]; try constructor. cbn [content_entries].
  destruct (contains error_marker text); [constructor |].
  destruct (json_loads text); [apply record_entries_clean | constructor].
Qed.

Lemma comment_entries_clean (r : outcome (list content_block)) :
  Forall clean_entry (comment_entries r).
Proof.
  destruct r as [[| [text |] more] | e]; try constructor. cbn [comment_entries].
  destruct (contains error_marker text); [constructor |].
  destruct (json_loads text) as [data |]; [| constructor].
  destruct (extract_comment_bodies data) as [bodies |] eqn:E; [| constructor].
  now apply (extract_comment_bodies_clean_entries data).
Qed.

Lemma content_requests_app (l1 l2 : list event) :
  content_requests (l1 ++ l2) = content_requests l1 ++ content_requests l2.
Proof. apply flat_map_app. Qed.

(** What one turn of the loop does, whatever the responses: it returns,
    issues the content request of its id and no other content request,
    and appends trimmed non-empty entries. *)
Lemma process_post_effect (idx : nat) (post_id : string) (st : state) :
  exists st' events new,
    process_post idx post_id st = (Returned tt, st') /\
    trace st' = trace st ++ events /\
    content_requests events = [post_id] /\
    reddit_texts st' = reddit_texts st ++ new /\
    Forall clean_entry new.
Proof.
  rewrite process_post_run.
  destruct (call_tool (session st) (GetPostContent post_id)) as [sess1 r1].
  destruct (content_completes r1).
  - destruct (call_tool sess1 (GetPostComments post_id)) as [sess2 r2].
    eexists _, _, _. split; [reflexivity |]. cbn [trace reddit_texts].
    split; [reflexivity |]. split; [now destruct (idx mod 10 =? 0) |].
    split; [reflexivity |]. apply Forall_app.
    split; [apply content_entries_clean | apply comment_entries_clean].
  - eexists _, _, _. split; [reflexivity |]. cbn [trace reddit_texts].
    split; [reflexivity |]. split; [reflexivity |].
    split; [reflexivity | apply content_entries_clean].
Qed.

Lemma process_posts_cons (idx : nat) (post_id : string) (rest : list string)
      (st : state) :
  process_posts idx (post_id :: rest) st =
  process_posts (S idx) rest (exec (process_post idx post_id) st).
Proof.
  cbn [process_posts]. unfold bind, exec.
  destruct (process_post_effect idx post_id st) as (st' & ev & new & H & _).
  now rewrite H.
Qed.

Lemma process_posts_effect (idx : nat) (post_ids : list string) (st : state) :
  exists st' events new,
    process_posts idx post_ids st = (Returned tt, st') /\
    trace st' = trace st ++ events /\
    content_requests events = post_ids /\
    reddit_texts st' = reddit_texts st ++ new /\
    Forall clean_entry new.
Proof.
  revert idx st. induction post_ids as [| post_id rest IH]; intros idx st.
  - exists st, [], []. cbn [process_posts]. rewrite !app_nil_r.
    repeat split. constructor.
  - rewrite process_posts_cons. unfold exec.
    destruct (process_post_effect idx post_id st)
      as (st1 & ev1 & new1 & H1 & Ht1 & Hc1 & Hr1 & Hn1).
    rewrite H1. cbn [snd].
    destruct (IH (S idx) st1) as (st2 & ev2 & new2 & H2 & Ht2 & Hc2 & Hr2 & Hn2).
    exists st2, (ev1 ++ ev2), (new1 ++ new2).
    split; [exact H2 |]. split; [now rewrite Ht2, Ht1, app_assoc |].
    split; [now rewrite content_requests_app, Hc1, Hc2 |].
    split; [now rewrite Hr2, Hr1, app_assoc |].
    apply Forall_app. now split.
Qed.

Lemma process_posts_app (idx : nat) (ids1 ids2 : list string) (st : state) :
  process_posts idx (ids1 ++ ids2) st =
  process_posts (idx + List.length ids1) ids2 (exec (process_posts idx ids1) st).
Proof.
  revert idx st. induction ids1 as [| post_id ids1 IH]; intros idx st.
  - cbn [app List.length process_posts]. now rewrite Nat.add_0_r.
  - cbn [app List.length]. rewrite !process_posts_cons, IH.
    unfold exec at 3. rewrite process_posts_cons.
    now rewrite Nat.add_succ_r.
Qed.

(** [scrape_reddit_mcp] once the name is parsed, the session initialized
    and the listing call answered. *)
Lemma scrape_reddit_mcp_run (subreddit_url : string) (post_limit : Z) (st : state)
      (subreddit_name : string) (sess1 sess2 : Session)
      (r : outcome (list content_block)) :
  extract_subreddit_name subreddit_url = Returned subreddit_name ->
  session_initialize (session st) = (sess1, Returned tt) ->
  call_tool sess1 (GetSubredditHotPosts subreddit_name (Z.min post_limit 100))
  = (sess2, r) ->
  let listed :=
    {| session := sess2;
       reddit_texts := [];
       trace := trace st
                ++ [Initialized;
                    Called (GetSubredditHotPosts subreddit_name (Z.min post_limit 100))] |} in
  scrape_reddit_mcp subreddit_url post_limit st =
  match listing_text r with
  | Raised e => (Raised e, listed)
  | Returned response_text =>
      let done :=
        exec (process_posts 1 (extract_post_ids response_text post_limit)) listed in
      let output_file := (subreddit_name ++ "_reddit_data.csv")%string in
      (Returned output_file,
       {| session := session done;
          reddit_texts := reddit_texts done;
          trace := trace done ++ [WroteCsv output_file (reddit_texts done)] |})
  end.
Proof.
  intros Hname Hinit Hcall listed.
  unfold scrape_reddit_mcp. unfold bind at 1. unfold lift. rewrite Hname.
  unfold bind at 1. unfold set_reddit_texts.
  unfold bind at 1. unfold initialize. cbn [session reddit_texts trace].
  rewrite Hinit. unfold bind at 1. unfold call. cbn [session reddit_texts trace].
  rewrite Hcall. rewrite <- app_assoc. cbn [app]. fold listed.
  assert (Hloop : forall response_text,
            (process_posts 1 (extract_post_ids response_text post_limit) ;;
             rows <- get_reddit_texts ;;
             log (WroteCsv (subreddit_name ++ "_reddit_data.csv") rows) ;;
             ret (subreddit_name ++ "_reddit_data.csv")%string) listed
            = let done :=
                exec (process_posts 1 (extract_post_ids response_text post_limit))
                     listed in
              (Returned (subreddit_name ++ "_reddit_data.csv")%string,
               {| session := session done;
                  reddit_texts := reddit_texts done;
                  trace := trace done
                           ++ [WroteCsv (subreddit_name ++ "_reddit_data.csv")
                                        (reddit_texts done)] |})).
  { intros response_text. unfold bind at 1. unfold exec.
    destruct (process_posts_effect 1 (extract_post_ids response_text post_limit) listed)
      as (done & ev & new & H & _).
    rewrite H. reflexivity. }
  destruct r as [[| [text |] more] | e]; cbn [listing_text first_text];
    try reflexivity.
  - unfold bind at 1. unfold ret at 1. apply Hloop.
  - unfold bind at 1. unfold ret at 1. apply Hloop.
Qed.

(** C4: no turn of the loop raises, whatever the content call, the
    comments call and the parsing of their responses do; the loop
    returns, and the content requests it has issued are those of all the
    ids of the batch, in order. *)
Theorem process_posts_attempts_every_id (idx : nat) (post_ids : list string)
        (st : state) :
  result (process_posts idx post_ids) st = Returned tt /\
  (forall k post_id st0, result (process_post k post_id) st0 = Returned tt) /\
  exists events,
    trace (exec (process_posts idx post_ids) st) = trace st ++ events /\
    content_requests events = post_ids.
Proof.
  destruct (process_posts_effect idx post_ids st)
    as (st' & events & new & H & Ht & Hc & _).
  unfold result, exec. rewrite H. split; [reflexivity |]. split.
  - intros k post_id st0.
    destruct (process_post_effect k post_id st0) as (st1 & ev & n & H1 & _).
    now rewrite H1.
  - exists events. now split.
Qed.

(** C1, amended: the comments of an id are fetched exactly when its
    content call returns and its response completes, that is when it is
    empty, or a text without the error marker that is no JSON or a
    record collected without raising; their bodies then end the
    aggregate.  A content call that raises and a response with the
    error marker do not complete: the comments of that id are skipped. *)
Theorem comments_fetched_iff_content_completes (idx : nat) (post_id : string)
        (st : state) :
  (let '(sess1, r1) := call_tool (session st) (GetPostContent post_id) in
   exists events,
     trace (exec (process_post idx post_id) st) = trace st ++ events /\
     (In (Called (GetPostComments post_id)) events <-> content_completes r1 = true) /\
     (content_completes r1 = true ->
      let '(sess2, r2) := call_tool sess1 (GetPostComments post_id) in
      reddit_texts (exec (process_post idx post_id) st) =
      (reddit_texts st ++ content_entries r1) ++ comment_entries r2)) /\
  (forall e, content_completes (Raised e) = false) /\
  (forall text more,
     contains error_marker text = true ->
     content_completes (Returned (TextContent text :: more)) = false) /\
  content_completes (Returned []) = true /\
  (forall text more,
     contains error_marker text = false ->
     json_loads text = Raised JSONDecodeError ->
     content_completes (Returned (TextContent text :: more)) = true).
Proof.
  split; [| split; [| split; [| split]]].
  - unfold exec. rewrite process_post_run.
    destruct (call_tool (session st) (GetPostContent post_id)) as [sess1 r1].
    destruct (content_completes r1).
    + destruct (call_tool sess1 (GetPostComments post_id)) as [sess2 r2].
      cbn [snd trace reddit_texts]. eexists. split; [reflexivity |].
      split; [| intros _; now rewrite app_assoc].
      split; [reflexivity |]. intros _. right. now left.
    + cbn [snd trace reddit_texts]. eexists. split; [reflexivity |].
      split; [| intros H; discriminate H].
      split; [| intros H; discriminate H].
      intros [H | []]. discriminate H.
  - reflexivity.
  - intros text more H. cbn [content_completes]. now rewrite H.
  - reflexivity.
  - intros text more H1 H2. cbn [content_completes]. now rewrite H1, H2.
Qed.

(** C6: one turn of the loop appends the title, then the body, then the
    bodies returned by the flattener for the comments response; a run
    over a batch only appends, and what it appends for the ids of a
    later part of the batch follows all it has appended for the earlier
    part; on a tree of the expected shape the flattener returns the
    emitted bodies in depth-first pre-order. *)
Theorem aggregate_order :
  (forall idx post_id st,
     let '(sess1, r1) := call_tool (session st) (GetPostContent post_id) in
     let '(sess2, r2) := call_tool sess1 (GetPostComments post_id) in
     exists title body comments,
       reddit_texts (exec (process_post idx post_id) st)
       = reddit_texts st ++ title ++ body ++ comments /\
       (title = [] \/
        exists text more d s,
          r1 = Returned (TextContent text :: more) /\
          json_loads text = Returned (JDict d) /\
          dict_get "title" d = Some (JString s) /\ title = [strip s]) /\
       (body = [] \/
        exists text more d s,
          r1 = Returned (TextContent text :: more) /\
          json_loads text = Returned (JDict d) /\
          body_text d = JString s /\ body = [strip s]) /\
       (comments = [] \/
        exists text more comments_data,
          r2 = Returned (TextContent text :: more) /\
          json_loads text = Returned comments_data /\
          extract_comment_bodies comments_data = Returned comments)) /\
  (forall idx ids1 ids2 st,
     exec (process_posts idx (ids1 ++ ids2)) st
     = exec (process_posts (idx + List.length ids1) ids2)
            (exec (process_posts idx ids1) st)) /\
  (forall idx post_ids st,
     exists new,
       reddit_texts (exec (process_posts idx post_ids) st) = reddit_texts st ++ new) /\
  (forall n,
     extract_comment_bodies (encode_comment n)
     = Returned (emitted_bodies (bodies_preorder n))) /\
  (forall roots,
     extract_comment_bodies (JList (map encode_comment roots))
     = Returned (emitted_bodies (flat_map bodies_preorder roots))).
Proof.
  split; [| split; [| split; [| split]]].
  - intros idx post_id st. unfold exec. rewrite process_post_run.
    destruct (call_tool (session st) (GetPostContent post_id)) as [sess1 r1].
    destruct (call_tool sess1 (GetPostComments post_id)) as [sess2 r2].
    assert (Hcontent : exists title body,
              content_entries r1 = title ++ body /\
              (title = [] \/
               exists text more d s,
                 r1 = Returned (TextContent text :: more) /\
                 json_loads text = Returned (JDict d) /\
                 dict_get "title" d = Some (JString s) /\ title = [strip s]) /\
              (body = [] \/
               exists text more d s,
                 r1 = Returned (TextContent text :: more) /\
                 json_loads text = Returned (JDict d) /\
                 body_text d = JString s /\ body = [strip s])).
    { destruct r1 as [[| [text |] more] | e];
        try (exists [], []; repeat split; now left).
      cbn [content_entries].
      destruct (contains error_marker text);
        [exists [], []; repeat split; now left |].
      destruct (json_loads text) as [[| | | | | | d] |] eqn:Hj;
        try (exists [], []; repeat split; now left).
      cbn [record_entries title_entries body_entries].
      eexists _, _. split; [reflexivity |]. split.
      - destruct (dict_get "title" d) as [[| | | | s | |] |] eqn:Ht;
          try now left.
        destruct (nonempty (strip s)); [| now left].
        right. exists text, more, d, s. repeat split; trivial.
      - destruct (title_is_text d); [| now left].
        destruct (body_text d) as [| | | | s | |] eqn:Hb; try now left.
        destruct (nonempty (strip s) && negb (list_in (lower s) body_sentinels));
          [| now left].
        right. exists text, more, d, s. repeat split; trivial. }
    destruct Hcontent as (title & body & Hcontent & Htitle & Hbody).
    destruct (content_completes r1); cbn [snd reddit_texts]; rewrite Hcontent.
    + exists title, body, (comment_entries r2).
      split; [now rewrite <- app_assoc |]. split; [exact Htitle |].
      split; [exact Hbody |].
      destruct r2 as [[| [text |] more] | e]; try now left.
      cbn [comment_entries].
      destruct (contains error_marker text); [now left |].
      destruct (json_loads text) as [comments_data |] eqn:Hj; [| now left].
      destruct (extract_comment_bodies comments_data) as [comments |] eqn:He;
        [| now left].
      right. exists text, more, comments_data. repeat split; assumption.
    + exists title, body, []. rewrite app_nil_r.
      split; [reflexivity |]. split; [exact Htitle |]. split; [exact Hbody |].
      now left.
  - intros idx ids1 ids2 st. unfold exec at 1 2. now rewrite process_posts_app.
  - intros idx post_ids st.
    destruct (process_posts_effect idx post_ids st) as (st' & ev & new & H & _ & _ & Hr & _).
    exists new. unfold exec. now rewrite H.
  - apply extract_comment_bodies_preorder.
  - apply extract_comment_bodies_forest.
Qed.

(** C10: every entry that the loop appends to the aggregate is non-empty
    and equal to its own trimmed form, and so is every row of a run of
    [scrape_reddit_mcp] that returns. *)
Theorem appended_entries_clean :
  (forall idx post_ids st,
     exists new,
       reddit_texts (exec (process_posts idx post_ids) st) = reddit_texts st ++ new /\
       Forall clean_entry new) /\
  (forall subreddit_url post_limit st output_file,
     result (scrape_reddit_mcp subreddit_url post_limit) st = Returned output_file ->
     Forall clean_entry
       (reddit_texts (exec (scrape_reddit_mcp subreddit_url post_limit) st))).
Proof.
  split.
  - intros idx post_ids st.
    destruct (process_posts_effect idx post_ids st) as (st' & ev & new & H & _ & _ & Hr & Hn).
    exists new. unfold exec. rewrite H. now split.
  - intros subreddit_url post_limit st output_file. unfold result, exec.
    destruct (extract_subreddit_name subreddit_url) as [name | e] eqn:Hname.
    2:{ unfold scrape_reddit_mcp, bind, lift. rewrite Hname. discriminate. }
    destruct (session_initialize (session st)) as [sess1 [[] | e]] eqn:Hinit.
    2:{ unfold scrape_reddit_mcp. unfold bind at 1. unfold lift. rewrite Hname.
        unfold bind at 1. unfold set_reddit_texts.
        unfold bind at 1. unfold initialize. cbn [session]. rewrite Hinit.
        discriminate. }
    destruct (call_tool sess1 (GetSubredditHotPosts name (Z.min post_limit 100)))
      as [sess2 r] eqn:Hcall.
    rewrite (scrape_reddit_mcp_run subreddit_url post_limit st name sess1 sess2 r
               Hname Hinit Hcall).
    destruct (listing_text r) as [response_text | e]; [| discriminate].
    intros _. cbn [snd reddit_texts].
    match goal with
    | |- context [exec (process_posts 1 ?ids) ?listed] =>
        destruct (process_posts_effect 1 ids listed)
          as (done & ev & new & H & _ & _ & Hr & Hn)
    end.
    unfold exec. rewrite H. cbn [snd]. rewrite Hr. exact Hn.
Qed.

(** C9: without the optional argument [main] runs the scraper with the
    limit 100, and with it, with the integer it denotes; the listing
    call is made with the minimum of the limit and 100; the ids whose
    content is requested are the deduplicated matches cut at the same
    limit, at most [post_limit] of them when it is not negative. *)
Theorem post_limit_default_and_use :
  (forall prog subreddit_url, main_post_limit [prog; subreddit_url] = Returned 100%Z) /\
  (forall prog subreddit_url st,
     main [prog; subreddit_url] st
     = (output_file <- scrape_reddit_mcp subreddit_url 100%Z ;;
        ret (Completed output_file)) st) /\
  (forall prog subreddit_url arg rest n st,
     py_int arg = Returned n ->
     main (prog :: subreddit_url :: arg :: rest) st
     = (output_file <- scrape_reddit_mcp subreddit_url n ;;
        ret (Completed output_file)) st) /\
  (forall subreddit_url post_limit st subreddit_name sess1 sess2 r,
     extract_subreddit_name subreddit_url = Returned subreddit_name ->
     session_initialize (session st) = (sess1, Returned tt) ->
     call_tool sess1 (GetSubredditHotPosts subreddit_name (Z.min post_limit 100))
     = (sess2, r) ->
     exists events,
       trace (exec (scrape_reddit_mcp subreddit_url post_limit) st)
       = trace st
         ++ Initialized
         :: Called (GetSubredditHotPosts subreddit_name (Z.min post_limit 100))
         :: events /\
       forall response_text more,
         r = Returned (TextContent response_text :: more) ->
         content_requests events
         = slice_to (dict_fromkeys (findall response_text)) post_limit /\
         ((0 <= post_limit)%Z ->
          (Z.of_nat (List.length (content_requests events)) <= post_limit)%Z)).
Proof.
  split; [reflexivity |]. split; [reflexivity |]. split.
  - intros prog subreddit_url arg rest n st Hint.
    cbn [main]. unfold bind at 1. unfold lift, main_post_limit. cbn [nth_error].
    now rewrite Hint.
  - intros subreddit_url post_limit st name sess1 sess2 r Hname Hinit Hcall.
    unfold exec.
    rewrite (scrape_reddit_mcp_run subreddit_url post_limit st name sess1 sess2 r
               Hname Hinit Hcall).
    destruct (listing_text r) as [response_text | e] eqn:Hl.
    + match goal with
      | |- context [exec (process_posts 1 ?ids) ?listed] =>
          destruct (process_posts_effect 1 ids listed)
            as (done & ev & new & H & Ht & Hc & _)
      end.
      unfold exec. rewrite H. cbn [snd trace]. rewrite Ht. cbn [trace].
      exists (ev ++ [WroteCsv (name ++ "_reddit_data.csv") (reddit_texts done)]).
      split; [now rewrite <- !app_assoc |].
      intros text more ->. injection Hl as <-.
      rewrite content_requests_app, Hc. cbn [content_requests flat_map app].
      rewrite app_nil_r. split; [reflexivity |]. intros Hcap.
      unfold extract_post_ids. rewrite slice_to_nonneg by exact Hcap.
      pose proof (firstn_le_length (Z.to_nat post_limit)
                    (dict_fromkeys (findall text))). lia.
    + cbn [snd trace]. exists []. split; [reflexivity |].
      intros text more ->. discriminate Hl.
Qed.

(** C2, where the code departs from it: the body is tested against the
    sentinels before it is trimmed, so a sentinel between blanks is
    appended in its trimmed form, although that form is a sentinel; the
    record with the title Hi and the body none adds the title alone. *)
Theorem body_sentinel_tested_untrimmed :
  (forall st,
     collect_body (JDict [("selftext", JString " none ")]) st
     = (Returned tt, state_append st ["none"])) /\
  strip " none " = "none" /\
  list_in (lower (strip " none ")) body_sentinels = true /\
  (forall st,
     (collect_title (JDict [("title", JString "Hi"); ("selftext", JString "none")]) ;;
      collect_body (JDict [("title", JString "Hi"); ("selftext", JString "none")])) st
     = (Returned tt,
        {| session := session st;
           reddit_texts := reddit_texts st ++ ["Hi"];
           trace := trace st |})).
Proof.
  split; [reflexivity |]. split; [reflexivity |]. split; [reflexivity |].
  reflexivity.
Qed.

End RunFacts.

(** ** Runs on concrete collaborators *)

(** The claim C7 fails on the bare shorthand prefix: the name is empty. *)
Lemma extract_subreddit_name_bare_prefix :
  extract_subreddit_name (C := sample_server) "r/" = Returned EmptyString.
Proof. reflexivity. Qed.

(** The other two ways to an empty name. *)
Lemma extract_subreddit_name_empty_cases :
  extract_subreddit_name (C := sample_server) EmptyString = Returned EmptyString /\
  extract_subreddit_name (C := sample_server) "https://reddit.com/r//python"
  = Returned EmptyString.
Proof. split; reflexivity. Qed.

Lemma extract_subreddit_name_nonempty_witness :
  extract_subreddit_name (C := sample_server) "https://www.reddit.com/r/python/"
  = Returned "python" /\
  "python" <> EmptyString.
Proof.
  split; [reflexivity |].
  apply (extract_subreddit_name_nonempty (C := sample_server)
           "https://www.reddit.com/r/python/" "python").
  - reflexivity.
  - discriminate.
  - discriminate.
  - intros path i Hpath. vm_compute in Hpath. injection Hpath as <-.
    destruct i as [| [| [| i]]]; vm_compute; intros H1 H2; discriminate.
Defined.

(** The URL parser rejects a host with an unmatched bracket before it
    comes to the two validations that the model leaves open. *)
Lemma cpython_urlparse_unmatched_bracket
      (check_bracketed_netloc checknetloc : string -> outcome unit) :
  cpython_urlparse_path check_bracketed_netloc checknetloc
    "https://[reddit.com/r/python" = Raised ValueError.
Proof. reflexivity. Qed.

(** The claim C8 fails on a URL whose host opens a bracket that it does
    not close: the URL parser raises and so does the function. *)
Lemma extract_subreddit_name_raises :
  extract_subreddit_name (C := sample_server) "https://[reddit.com/r/python"
  = Raised ValueError.
Proof. reflexivity. Qed.

Lemma extract_subreddit_name_cases_witness :
  extract_subreddit_name (C := sample_server) "r/python" = Returned "python" /\
  extract_subreddit_name (C := sample_server) "https://www.reddit.com/r/python/hot"
  = Returned "python" /\
  extract_subreddit_name (C := sample_server) "python" = Returned "python" /\
  extract_subreddit_name (C := sample_server) "https://[reddit.com/r/python"
  = Raised ValueError.
Proof.
  split; [| split; [| split]].
  - apply (proj1 (extract_subreddit_name_cases (C := sample_server) "r/python")).
    reflexivity.
  - destruct (extract_subreddit_name_cases (C := sample_server)
                "https://www.reddit.com/r/python/hot") as (_ & H).
    destruct (H eq_refl) as (_ & Hpath).
    destruct (Hpath "/r/python/hot" eq_refl) as (Hmarker & _).
    apply (Hmarker [] "python" ["hot"]); [reflexivity | intros []].
  - destruct (extract_subreddit_name_cases (C := sample_server) "python") as (_ & H).
    destruct (H eq_refl) as (_ & Hpath).
    destruct (Hpath "python" eq_refl) as (_ & Hnone).
    apply Hnone. intros [| x [| y before]] name after Heq; discriminate Heq.
  - destruct (extract_subreddit_name_cases (C := sample_server)
                "https://[reddit.com/r/python") as (_ & H).
    destruct (H eq_refl) as (Hraise & _).
    apply Hraise. reflexivity.
Defined.

(** The claim C3 fails on a dict whose body is not a string: the
    flattener raises. *)
Lemma extract_comment_bodies_raises :
  extract_comment_bodies (JDict [("body", JNull)]) = Raised AttributeError /\
  extract_comment_bodies (JDict [("replies", JInt 5)]) = Raised TypeError.
Proof. split; reflexivity. Qed.

Lemma extract_comment_bodies_flattenable_witness :
  flattenable deleted_with_reply /\
  extract_comment_bodies deleted_with_reply = Returned ["hello"].
Proof.
  assert (Hf : flattenable deleted_with_reply).
  { apply flattenable_dict.
    - intros v Hv. injection Hv as <-. now exists "[deleted]".
    - intros r Hr _. injection Hr as <-. exact I.
    - intros items Hr. injection Hr as <-.
      constructor; [| constructor; [| constructor]].
      + apply flattenable_dict.
        * intros v Hv. injection Hv as <-. now exists "hello".
        * intros r Hr. discriminate Hr.
        * intros items Hr. discriminate Hr.
      + apply flattenable_other. exact I. }
  split; [exact Hf |].
  destruct (proj1 (proj1 extract_comment_bodies_flattenable deleted_with_reply) Hf)
    as (bodies & Hb).
  rewrite Hb. f_equal.
  assert (He : Returned bodies = Returned ["hello"]) by (rewrite <- Hb; reflexivity).
  now injection He.
Defined.

Lemma extract_post_ids_spec_witness :
  (0 <= 10)%Z /\
  extract_post_ids sample_listing 10 = ["abc123"; "xyz789"] /\
  NoDup (extract_post_ids sample_listing 10).
Proof.
  assert (Hcap : (0 <= 10)%Z) by lia.
  split; [exact Hcap |]. split; [reflexivity |].
  exact (proj1 (proj2 (proj2 (proj2 (proj2
           (extract_post_ids_spec sample_listing 10 Hcap)))))).
Defined.

(** The claim C1 fails when the content call fails at the transport
    level and when it answers with the soft-error text: the comments
    call would have answered with a body, and is not made. *)
Lemma comments_skipped_after_content_failure :
  (fst (@call_tool content_call_fails tt (GetPostContent "abc123"))
   = tt /\
   snd (@call_tool content_call_fails tt (GetPostContent "abc123"))
   = Raised OtherException /\
   comment_entries (C := content_call_fails)
     (snd (@call_tool content_call_fails tt (GetPostComments "abc123")))
   = ["hello"] /\
   process_post (C := content_call_fails) 1 "abc123"
     (initial_state (C := content_call_fails) tt)
   = (Returned tt,
      @Build_state content_call_fails tt [] [Called (GetPostContent "abc123")])) /\
  (snd (@call_tool content_soft_error tt (GetPostContent "abc123"))
   = Returned [TextContent "Error processing request"] /\
   comment_entries (C := content_soft_error)
     (snd (@call_tool content_soft_error tt (GetPostComments "abc123")))
   = ["hello"] /\
   process_post (C := content_soft_error) 1 "abc123"
     (initial_state (C := content_soft_error) tt)
   = (Returned tt,
      @Build_state content_soft_error tt [] [Called (GetPostContent "abc123")])).
Proof. repeat split. Qed.

Lemma comments_fetched_witness :
  content_completes (C := sample_server)
    (snd (@call_tool sample_server tt (GetPostContent "abc123")))
  = true /\
  In (Called (GetPostComments "abc123"))
     (trace (exec (process_post (C := sample_server) 1 "abc123")
                  (initial_state (C := sample_server) tt))).
Proof.
  split; [reflexivity |].
  destruct (proj1 (comments_fetched_iff_content_completes (C := sample_server)
                     1 "abc123" (initial_state (C := sample_server) tt)))
    as (events & Htrace & Hiff & _).
  rewrite Htrace. apply in_or_app. right. apply Hiff. reflexivity.
Defined.

Lemma appended_entries_clean_witness :
  result (scrape_reddit_mcp (C := sample_server) "r/dahab" 10)
         (initial_state (C := sample_server) tt)
  = Returned "dahab_reddit_data.csv" /\
  Forall clean_entry
    (reddit_texts (exec (scrape_reddit_mcp (C := sample_server) "r/dahab" 10)
                        (initial_state (C := sample_server) tt))).
Proof.
  assert (H : result (scrape_reddit_mcp (C := sample_server) "r/dahab" 10)
                     (initial_state (C := sample_server) tt)
              = Returned "dahab_reddit_data.csv") by reflexivity.
  split; [exact H |].
  exact (proj2 (appended_entries_clean (C := sample_server))
           "r/dahab" 10%Z (initial_state (C := sample_server) tt)
           "dahab_reddit_data.csv" H).
Defined.

Lemma post_limit_default_and_use_witness :
  exists events,
    trace (exec (scrape_reddit_mcp (C := sample_server) "r/dahab" 1000)
                (initial_state (C := sample_server) tt))
    = Initialized :: Called (GetSubredditHotPosts "dahab" 100) :: events /\
    content_requests events = ["abc123"; "xyz789"] /\
    (Z.of_nat (List.length (content_requests events)) <= 1000)%Z.
Proof.
  destruct (proj2 (proj2 (proj2 (post_limit_default_and_use (C := sample_server))))
              "r/dahab" 1000%Z (initial_state (C := sample_server) tt) "dahab" tt tt
              (Returned [TextContent sample_listing])
              eq_refl eq_refl eq_refl)
    as (events & Htrace & Hlisting).
  destruct (Hlisting sample_listing [] eq_refl) as (Hids & Hcap).
  exists events. split; [exact Htrace |]. split.
  - rewrite Hids. reflexivity.
  - apply Hcap. lia.
Defined.

(** * Further properties of the code *)

(** ** The forum name of a URL with the path /r/name *)

Lemma append_nil_r (s : string) : (s ++ EmptyString)%string = s.
Proof. induction s as [| c s IH]; simpl; [reflexivity | now rewrite IH]. Qed.

Lemma rstrip_by_kept (p : ascii -> bool) (kept rest : string) :
  all_chars (fun c => negb (p c)) kept = true ->
  rstrip_by p (kept ++ rest) = (kept ++ rstrip_by p rest)%string.
Proof.
  induction kept as [| c kept IH]; intros H; [reflexivity |].
  cbn [all_chars] in H. apply andb_true_iff in H as [Hc H].
  apply negb_true_iff in Hc.
  cbn [append rstrip_by]. rewrite (IH H).
  destruct (kept ++ rstrip_by p rest)%string; [now rewrite Hc | reflexivity].
Qed.

Lemma rstrip_by_before (p : ascii -> bool) (before s : string) :
  rstrip_by p s <> EmptyString ->
  rstrip_by p (before ++ s) = (before ++ rstrip_by p s)%string.
Proof.
  intros Hne. induction before as [| c before IH]; [reflexivity |].
  cbn [append rstrip_by]. rewrite IH.
  destruct (before ++ rstrip_by p s)%string eqn:E; [| reflexivity].
  destruct before; [now elim Hne | discriminate E].
Qed.

Lemma rstrip_by_slash_head (p : ascii -> bool) (rest : string) :
  rest = EmptyString \/ startswith "/" rest = true ->
  rstrip_by p rest = EmptyString \/ startswith "/" (rstrip_by p rest) = true.
Proof.
  intros [-> | H]; [now left |].
  destruct rest as [| c rest]; [discriminate H |].
  cbn [startswith] in H. apply andb_true_iff in H as [Hc _].
  apply Ascii.eqb_eq in Hc. subst c. cbn [rstrip_by].
  destruct (rstrip_by p rest); [destruct (p "/"%char); [now left | now right] |].
  now right.
Qed.

Lemma split_slash_free (name rest : string) :
  slash_free name = true ->
  rest = EmptyString \/ startswith "/" rest = true ->
  exists others, split "/" (name ++ rest) = name :: others.
Proof.
  intros Hfree Hrest. induction name as [| c name IH].
  - destruct Hrest as [-> | H]; [now exists [] |].
    destruct rest as [| d rest]; [discriminate H |].
    cbn [startswith] in H. apply andb_true_iff in H as [Hd _].
    apply Ascii.eqb_eq in Hd. subst d. cbn [append split].
    rewrite Ascii.eqb_refl. eauto.
  - cbn [slash_free all_chars] in Hfree. apply andb_true_iff in Hfree as [Hc Hfree].
    apply negb_true_iff in Hc. destruct (IH Hfree) as (others & Hs).
    cbn [append split]. rewrite Hc, Hs. eauto.
Qed.

Section ParserPaths.

Context {C : Collaborators}.

(** X1: when the input is no shorthand and the URL parser gives the
    path /r/name, alone or followed by a slash and anything, with a
    non-empty name without a slash, the function returns that name. *)
Theorem extract_subreddit_name_of_forum_path (url name rest : string) :
  startswith "r/" url = false ->
  urlparse_path url = Returned ("/r/" ++ name ++ rest)%string ->
  name <> EmptyString ->
  slash_free name = true ->
  rest = EmptyString \/ startswith "/" rest = true ->
  extract_subreddit_name url = Returned name.
Proof.
  intros Hs Hpath Hne Hfree Hrest.
  rewrite (extract_subreddit_name_url url _ Hs Hpath).
  set (p := fun c : ascii => char_in c "/").
  assert (Hstrip : strip_chars "/" ("/r/" ++ name ++ rest)
                   = ("r/" ++ name ++ rstrip_by p rest)%string).
  { unfold strip_chars, strip_by. fold p.
    change (lstrip_by p ("/r/" ++ name ++ rest))
      with ("r/" ++ (name ++ rest))%string.
    assert (Hkept : rstrip_by p (name ++ rest) = (name ++ rstrip_by p rest)%string).
    { apply rstrip_by_kept. unfold slash_free in Hfree.
      clear - Hfree. induction name as [| c name IH]; [reflexivity |].
      cbn [all_chars] in *. apply andb_true_iff in Hfree as [Hc Hfree].
      rewrite (IH Hfree), andb_true_r. unfold p. cbn [char_in].
      now rewrite orb_false_r. }
    rewrite (rstrip_by_before p "r/" (name ++ rest)); [now rewrite Hkept |].
    rewrite Hkept. destruct name; [now elim Hne | discriminate]. }
  rewrite Hstrip.
  destruct (split_slash_free name (rstrip_by p rest) Hfree
              (rstrip_by_slash_head p rest Hrest)) as (others & Hsplit).
  change (split "/" ("r/" ++ name ++ rstrip_by p rest))
    with (match split "/" (String "/" (name ++ rstrip_by p rest)) with
          | h :: t => String "r" h :: t
          | [] => ["r"]
          end).
  change (split "/" (String "/" (name ++ rstrip_by p rest)))
    with (EmptyString :: split "/" (name ++ rstrip_by p rest)).
  rewrite Hsplit. reflexivity.
Qed.

End ParserPaths.

(** ** More on the listing id extraction *)

Lemma is_token_true (id : string) :
  is_token id = true <-> id <> EmptyString /\ all_chars is_alnum id = true.
Proof.
  unfold is_token. rewrite andb_true_iff, negb_true_iff, String.eqb_neq.
  reflexivity.
Qed.

Lemma findall_listing_of (items : list (string * string)) (tail : string) :
  Forall (fun item => slash_free (fst item) = true /\ is_token (snd item) = true)
         items ->
  slash_free tail = true ->
  findall (listing_of items tail) = map snd items.
Proof.
  intros Hitems Htail. induction Hitems as [| [filler id] items [Hf Hid] _ IH].
  - now apply findall_slash_free.
  - cbn [listing_of map snd fst] in *. apply is_token_true in Hid as [Hne Hall].
    now rewrite (findall_filler_link filler id _ Hf Hne Hall), IH.
Qed.

(** X2: in a listing made of links separated by texts without a slash,
    every link is found, in order: for a cap that is not negative the
    batch is the first [cap] ids of the linked ids, each kept at its
    first occurrence. *)
Theorem extract_post_ids_of_listing (items : list (string * string))
        (tail : string) (cap : Z) :
  Forall (fun item => slash_free (fst item) = true /\ is_token (snd item) = true)
         items ->
  slash_free tail = true ->
  (0 <= cap)%Z ->
  findall (listing_of items tail) = map snd items /\
  extract_post_ids (listing_of items tail) cap
  = firstn (Z.to_nat cap) (first_seen (map snd items)).
Proof.
  intros Hitems Htail Hcap.
  pose proof (findall_listing_of items tail Hitems Htail) as Hfind.
  split; [exact Hfind |].
  unfold extract_post_ids.
  now rewrite Hfind, dict_fromkeys_first_seen, slice_to_nonneg.
Qed.

(** X3: the batch of a smaller cap is the beginning of the batch of a
    larger one, and a listing without a repeated link gives its matches
    unchanged up to the cap. *)
Theorem extract_post_ids_monotone (text : string) (cap1 cap2 : Z) :
  (0 <= cap1 <= cap2)%Z ->
  extract_post_ids text cap1
  = firstn (Z.to_nat cap1) (extract_post_ids text cap2) /\
  (NoDup (findall text) ->
   extract_post_ids text cap1 = firstn (Z.to_nat cap1) (findall text)).
Proof.
  intros Hcap. unfold extract_post_ids.
  rewrite !slice_to_nonneg by lia. split.
  - rewrite firstn_firstn. f_equal. lia.
  - intros Hnd. f_equal. rewrite dict_fromkeys_first_seen.
    induction Hnd as [| x l Hx _ IH]; [reflexivity |].
    cbn [first_seen]. rewrite IH. f_equal.
    apply forallb_filter_id. apply forallb_forall. intros y Hy.
    apply negb_true_iff, String.eqb_neq. intros ->. now elim Hx.
Qed.

(** X4: the size of the batch for every integer limit: the smaller of
    the limit and the number of distinct ids when the limit is not
    negative, and for a negative limit the number of distinct ids less
    the absolute value of the limit (the last ids are dropped), not
    below zero. *)
Theorem extract_post_ids_length (text : string) (post_limit : Z) :
  let distinct := Z.of_nat (List.length (dict_fromkeys (findall text))) in
  Z.of_nat (List.length (extract_post_ids text post_limit))
  = if (0 <=? post_limit)%Z then Z.min post_limit distinct
    else Z.max 0 (distinct + post_limit).
Proof.
  intros distinct. unfold extract_post_ids, slice_to.
  destruct (0 <=? post_limit)%Z eqn:E; rewrite length_firstn; subst distinct.
  - apply Z.leb_le in E. lia.
  - apply Z.leb_gt in E. lia.
Qed.

(** ** More on the comment-tree flattener *)

(** X5: none of the bodies that the flattener returns is a tombstone,
    [deleted] or [removed], or empty; each is equal to its own trimmed
    form. *)
Theorem extract_comment_bodies_no_tombstone (data : json) (bodies : list string) :
  extract_comment_bodies data = Returned bodies ->
  forall body, In body bodies ->
    body <> "[deleted]" /\ body <> "[removed]" /\ body <> EmptyString /\
    strip body = body.
Proof.
  intros H body Hin. apply extract_comment_bodies_clean in H.
  rewrite Forall_forall in H. destruct (H body Hin) as ((Hne & Hstrip) & Hkeep).
  unfold keep_comment_body in Hkeep. apply andb_true_iff in Hkeep as [_ Hk].
  apply negb_true_iff in Hk.
  repeat split; trivial; intros ->; discriminate Hk.
Qed.

(** X6: of a dict the flattener reads the fields body and replies and
    nothing else: two dicts with the same two fields give the same
    result, whatever their other fields. *)
Theorem extract_comment_bodies_reads_two_fields (d d' : list (string * json)) :
  dict_get "body" d = dict_get "body" d' ->
  dict_get "replies" d = dict_get "replies" d' ->
  extract_comment_bodies (JDict d) = extract_comment_bodies (JDict d').
Proof.
  intros Hbody Hreplies. rewrite !extract_comment_bodies_dict.
  unfold own_body. now rewrite Hbody, Hreplies.
Qed.

(** X7: the flattening of a list of siblings put behind another is the
    flattening of the first followed by that of the second, and raises
    when one of them does. *)
Theorem extract_comment_bodies_siblings (l1 l2 : list json) :
  extract_comment_bodies (JList (l1 ++ l2)) =
  outcome_bind (extract_comment_bodies (JList l1)) (fun a =>
  outcome_bind (extract_comment_bodies (JList l2)) (fun b =>
  Returned (a ++ b))).
Proof. rewrite !extract_comment_bodies_list. apply extend_all_app. Qed.

Lemma extend_all_raises (items : list json) (x : json) (e : py_exception) :
  In x items -> extract_comment_bodies x = Raised e ->
  exists e', extend_all items = Raised e'.
Proof.
  induction items as [| y items IH]; intros Hin Hx; [now elim Hin |].
  cbn [extend_all]. destruct Hin as [-> | Hin].
  - rewrite Hx. now exists e.
  - destruct (extract_comment_bodies y) as [a | e1]; [| now exists e1].
    destruct (IH Hin Hx) as (e' & ->). now exists e'.
Qed.

(** X8: one node on which the flattener raises makes it raise on the
    list that holds the node and on the dict whose replies hold it: the
    bodies found so far are lost with it. *)
Theorem extract_comment_bodies_raise_spreads (x : json) (e : py_exception) :
  extract_comment_bodies x = Raised e ->
  (forall items, In x items ->
     exists e', extract_comment_bodies (JList items) = Raised e') /\
  (forall d items,
     dict_get "replies" d = Some (JList items) -> In x items ->
     exists e', extract_comment_bodies (JDict d) = Raised e').
Proof.
  intros Hx. split.
  - intros items Hin. rewrite extract_comment_bodies_list.
    now apply (extend_all_raises items x e).
  - intros d items Hreplies Hin. rewrite extract_comment_bodies_dict, Hreplies.
    destruct (own_body d) as [bodies | e1]; [| now exists e1].
    cbn [outcome_bind]. destruct items as [| y items]; [now elim Hin |].
    cbn [truthy iterate_replies].
    destruct (extend_all_raises (y :: items) x e Hin Hx) as (e' & ->).
    now exists e'.
Qed.

(** ** More on the loop over the posts *)

Lemma sleeps_app (l1 l2 : list event) : sleeps (l1 ++ l2) = sleeps l1 + sleeps l2.
Proof. unfold sleeps. now rewrite filter_app, length_app. Qed.

Lemma pause_turns_succ (idx n : nat) :
  pause_turns idx (S n)
  = (if idx mod 10 =? 0 then [idx] else []) ++ pause_turns (S idx) n.
Proof.
  unfold pause_turns. cbn [seq filter]. now destruct (idx mod 10 =? 0).
Qed.

Lemma pause_turns_count (idx n : nat) :
  1 <= idx ->
  List.length (pause_turns idx n) = (idx + n - 1) / 10 - (idx - 1) / 10.
Proof.
  revert idx. induction n as [| n IH]; intros idx Hidx.
  - unfold pause_turns. cbn [seq filter List.length]. rewrite Nat.add_0_r. lia.
  - rewrite pause_turns_succ, length_app, (IH (S idx)) by lia.
    replace (S idx + n - 1) with (idx + S n - 1) by lia.
    replace (S idx - 1) with idx by lia.
    assert (Hstep : idx / 10 = (idx - 1) / 10 + (if idx mod 10 =? 0 then 1 else 0)).
    { pose proof (Nat.div_mod_eq idx 10) as H1.
      pose proof (Nat.div_mod_eq (idx - 1) 10) as H2.
      pose proof (Nat.mod_upper_bound idx 10 ltac:(discriminate)) as H3.
      pose proof (Nat.mod_upper_bound (idx - 1) 10 ltac:(discriminate)) as H4.
      destruct (Nat.eqb_spec (idx mod 10) 0) as [E | E]; lia. }
    assert (Hmono : idx / 10 <= (idx + S n - 1) / 10).
    { apply Nat.Div0.div_le_mono. lia. }
    destruct (idx mod 10 =? 0); cbn [List.length]; lia.
Qed.

Section LoopFacts.

Context {C : Collaborators}.

(** X9: the events of one turn of the loop: the content request of its
    id; then, only when the content response completes, the comments
    request of the same id; then, only when the number of the turn is a
    multiple of ten, one pause. *)
Theorem process_post_events (idx : nat) (post_id : string) (st : state) :
  trace (exec (process_post idx post_id) st)
  = trace st
    ++ Called (GetPostContent post_id)
    :: (if content_completes (snd (call_tool (session st) (GetPostContent post_id)))
        then Called (GetPostComments post_id)
             :: (if idx mod 10 =? 0 then [Slept] else [])
        else []).
Proof.
  unfold exec. rewrite process_post_run.
  destruct (call_tool (session st) (GetPostContent post_id)) as [sess1 r1].
  cbn [snd]. destruct (content_completes r1); [| reflexivity].
  now destruct (call_tool sess1 (GetPostComments post_id)).
Qed.

Lemma process_post_trace (idx : nat) (post_id : string) (st : state) :
  exists events,
    trace (exec (process_post idx post_id) st) = trace st ++ events /\
    sleeps events <= (if idx mod 10 =? 0 then 1 else 0) /\
    ((forall s id, content_completes (snd (call_tool s (GetPostContent id))) = true) ->
     sleeps events = (if idx mod 10 =? 0 then 1 else 0)) /\
    incl (comment_requests events) [post_id].
Proof.
  unfold exec. rewrite process_post_run.
  pose proof (fun H : forall s id,
                content_completes (snd (call_tool s (GetPostContent id))) = true =>
                H (session st) post_id) as Hall.
  destruct (call_tool (session st) (GetPostContent post_id)) as [sess1 r1].
  cbn [snd] in *. destruct (content_completes r1).
  - destruct (call_tool sess1 (GetPostComments post_id)) as [sess2 r2].
    cbn [snd trace]. eexists. split; [reflexivity |].
    destruct (idx mod 10 =? 0); cbn; repeat split; auto using incl_refl.
  - cbn [snd trace]. eexists. split; [reflexivity |]. cbn.
    split; [lia |]. split; [| intros x []].
    intros H. discriminate (Hall H).
Qed.

Lemma process_posts_trace (idx : nat) (post_ids : list string) (st : state) :
  exists events,
    trace (exec (process_posts idx post_ids) st) = trace st ++ events /\
    sleeps events <= List.length (pause_turns idx (List.length post_ids)) /\
    ((forall s id, content_completes (snd (call_tool s (GetPostContent id))) = true) ->
     sleeps events = List.length (pause_turns idx (List.length post_ids))) /\
    incl (comment_requests events) post_ids.
Proof.
  revert idx st. induction post_ids as [| post_id rest IH]; intros idx st.
  - exists []. cbn. rewrite app_nil_r. repeat split; auto using incl_refl.
  - unfold exec. rewrite process_posts_cons. fold (exec (process_posts (S idx) rest)
                                                        (exec (process_post idx post_id) st)).
    destruct (process_post_trace idx post_id st) as (ev1 & Ht1 & Hle1 & Heq1 & Hin1).
    destruct (IH (S idx) (exec (process_post idx post_id) st))
      as (ev2 & Ht2 & Hle2 & Heq2 & Hin2).
    exists (ev1 ++ ev2). rewrite Ht2, Ht1, <- app_assoc.
    cbn [List.length]. rewrite pause_turns_succ, length_app, sleeps_app.
    assert (Hlen : List.length (if idx mod 10 =? 0 then [idx] else [])
                   = (if idx mod 10 =? 0 then 1 else 0))
      by now destruct (idx mod 10 =? 0).
    rewrite Hlen. split; [reflexivity |]. split; [lia |]. split.
    + intros H. now rewrite (Heq1 H), (Heq2 H).
    + unfold comment_requests in *. rewrite flat_map_app.
      apply incl_app.
      * intros x Hx. left. destruct (Hin1 x Hx) as [<- | []]. reflexivity.
      * intros x Hx. right. now apply Hin2.
Qed.

(** X10: a run over a batch pauses at most once for every turn whose
    number is a multiple of ten, that is at most a tenth of the size of
    the batch times when the turns are numbered from one as line 65 does;
    it pauses exactly that often when every content response completes;
    and it requests comments of ids of the batch only. *)
Theorem process_posts_pauses (post_ids : list string) (st : state) :
  exists events,
    trace (exec (process_posts 1 post_ids) st) = trace st ++ events /\
    sleeps events <= List.length post_ids / 10 /\
    ((forall s id, content_completes (snd (call_tool s (GetPostContent id))) = true) ->
     sleeps events = List.length post_ids / 10) /\
    incl (comment_requests events) post_ids.
Proof.
  destruct (process_posts_trace 1 post_ids st) as (events & Ht & Hle & Heq & Hin).
  rewrite (pause_turns_count 1 (List.length post_ids) (le_n 1)) in *.
  replace (1 + List.length post_ids - 1) with (List.length post_ids) in * by lia.
  change ((1 - 1) / 10) with 0 in *. rewrite Nat.sub_0_r in *.
  exists events. repeat split; assumption.
Qed.

Lemma entries_without_json (r : outcome (list content_block)) :
  (forall text, exists e, json_loads text = Raised e) ->
  content_entries r = [] /\ comment_entries r = [].
Proof.
  intros Hno. destruct r as [[| [text |] more] | e]; try (split; reflexivity).
  cbn [content_entries comment_entries]. destruct (Hno text) as (e & ->).
  now destruct (contains error_marker text).
Qed.

(** X11: no text is appended as it came: when the decoder rejects every
    text, a run over a batch leaves the aggregate as it was. *)
Theorem process_posts_no_raw_text (idx : nat) (post_ids : list string) (st : state) :
  (forall text, exists e, json_loads text = Raised e) ->
  reddit_texts (exec (process_posts idx post_ids) st) = reddit_texts st.
Proof.
  intros Hno. revert idx st.
  induction post_ids as [| post_id rest IH]; intros idx st; [reflexivity |].
  unfold exec. rewrite process_posts_cons.
  fold (exec (process_posts (S idx) rest) (exec (process_post idx post_id) st)).
  rewrite IH. unfold exec. rewrite process_post_run.
  destruct (call_tool (session st) (GetPostContent post_id)) as [sess1 r1].
  destruct (entries_without_json r1 Hno) as [H1 _].
  destruct (content_completes r1).
  - destruct (call_tool sess1 (GetPostComments post_id)) as [sess2 r2].
    destruct (entries_without_json r2 Hno) as [_ H2].
    cbn [snd reddit_texts]. now rewrite H1, H2, app_nil_r.
  - cbn [snd reddit_texts]. now rewrite H1, app_nil_r.
Qed.

Lemma comments_fail_entries (r : outcome (list content_block)) :
  comments_fail r -> comment_entries r = [].
Proof.
  destruct r as [[| [text |] more] | e]; try reflexivity.
  cbn [comments_fail comment_entries].
  intros [H | [(e & H) | (data & e & H1 & H2)]].
  - now rewrite H.
  - rewrite H. now destruct (contains error_marker text).
  - rewrite H1, H2. now destruct (contains error_marker text).
Qed.

(** X12: a failure on the side of the comments costs the comments only:
    when the content response completes and the comments call fails,
    answers without a text, with the error marker, with a text that is
    no JSON or with a tree on which the flattener raises, the turn
    returns and appends exactly the entries of the content. *)
Theorem process_post_comments_failure (idx : nat) (post_id : string) (st : state)
        (sess1 sess2 : Session) (r1 r2 : outcome (list content_block)) :
  call_tool (session st) (GetPostContent post_id) = (sess1, r1) ->
  content_completes r1 = true ->
  call_tool sess1 (GetPostComments post_id) = (sess2, r2) ->
  comments_fail r2 ->
  result (process_post idx post_id) st = Returned tt /\
  reddit_texts (exec (process_post idx post_id) st)
  = reddit_texts st ++ content_entries r1.
Proof.
  intros H1 Hc H2 Hfail. unfold result, exec.
  rewrite process_post_run, H1, Hc, H2. cbn [fst snd reddit_texts].
  now rewrite (comments_fail_entries r2 Hfail), app_nil_r.
Qed.

(** X13: a content text that holds the error marker anywhere ends the
    turn at once, also when the text is the JSON of a post: nothing is
    appended and the comments are not requested. *)
Theorem process_post_error_marker (idx : nat) (post_id : string) (st : state)
        (sess1 : Session) (text : string) (more : list content_block) :
  call_tool (session st) (GetPostContent post_id)
  = (sess1, Returned (TextContent text :: more)) ->
  contains error_marker text = true ->
  process_post idx post_id st
  = (Returned tt,
     {| session := sess1;
        reddit_texts := reddit_texts st;
        trace := trace st ++ [Called (GetPostContent post_id)] |}).
Proof.
  intros H1 Hm. rewrite process_post_run, H1.
  cbn [content_completes content_entries]. rewrite Hm. cbn [negb andb].
  now rewrite app_nil_r.
Qed.

(** X14: a record with a title that is a string and a body that is
    neither false nor a string gives its trimmed title, when that is
    not empty, and nothing else: the body raises after the title has
    been appended, and the comments of the post are not requested. *)
Theorem process_post_title_before_body_raises
        (idx : nat) (post_id : string) (st : state) (sess1 : Session)
        (text : string) (more : list content_block)
        (d : list (string * json)) (title : string) :
  call_tool (session st) (GetPostContent post_id)
  = (sess1, Returned (TextContent text :: more)) ->
  contains error_marker text = false ->
  json_loads text = Returned (JDict d) ->
  dict_get "title" d = Some (JString title) ->
  body_is_text d = false ->
  process_post idx post_id st
  = (Returned tt,
     {| session := sess1;
        reddit_texts :=
          reddit_texts st ++ (if nonempty (strip title) then [strip title] else []);
        trace := trace st ++ [Called (GetPostContent post_id)] |}).
Proof.
  intros H1 Hm Hj Ht Hb. rewrite process_post_run, H1.
  cbn [content_completes content_entries]. rewrite Hm, Hj.
  cbn [negb andb record_collectable record_entries title_entries body_entries].
  unfold title_is_text. rewrite Ht, Hb. cbn [andb].
  unfold body_is_text in Hb.
  destruct (body_text d); try discriminate Hb; now rewrite app_nil_r.
Qed.

End LoopFacts.

(** ** The whole run *)

Lemma csv_writes_app (l1 l2 : list event) :
  csv_writes (l1 ++ l2) = csv_writes l1 ++ csv_writes l2.
Proof. apply flat_map_app. Qed.

Lemma comment_requests_app (l1 l2 : list event) :
  comment_requests (l1 ++ l2) = comment_requests l1 ++ comment_requests l2.
Proof. apply flat_map_app. Qed.

Section WholeRun.

Context {C : Collaborators}.

Lemma process_post_writes_nothing (idx : nat) (post_id : string) (st : state) :
  exists events,
    trace (exec (process_post idx post_id) st) = trace st ++ events /\
    csv_writes events = [].
Proof.
  rewrite process_post_events. eexists. split; [reflexivity |].
  destruct (content_completes _); [| reflexivity].
  now destruct (idx mod 10 =? 0).
Qed.

Lemma process_posts_writes_nothing (idx : nat) (post_ids : list string) (st : state) :
  exists events,
    trace (exec (process_posts idx post_ids) st) = trace st ++ events /\
    csv_writes events = [].
Proof.
  revert idx st. induction post_ids as [| post_id rest IH]; intros idx st.
  - exists []. split; [now rewrite app_nil_r | reflexivity].
  - unfold exec. rewrite process_posts_cons.
    fold (exec (process_posts (S idx) rest) (exec (process_post idx post_id) st)).
    destruct (process_post_writes_nothing idx post_id st) as (ev1 & Ht1 & Hw1).
    destruct (IH (S idx) (exec (process_post idx post_id) st)) as (ev2 & Ht2 & Hw2).
    exists (ev1 ++ ev2). rewrite Ht2, Ht1, <- app_assoc, csv_writes_app, Hw1, Hw2.
    now split.
Qed.

(** The ways of [scrape_reddit_mcp] to its end. *)
Lemma scrape_reddit_mcp_cases (subreddit_url : string) (post_limit : Z) (st : state) :
  (exists e,
     extract_subreddit_name subreddit_url = Raised e /\
     scrape_reddit_mcp subreddit_url post_limit st = (Raised e, st)) \/
  (exists name sess1 e,
     extract_subreddit_name subreddit_url = Returned name /\
     session_initialize (session st) = (sess1, Raised e) /\
     scrape_reddit_mcp subreddit_url post_limit st
     = (Raised e,
        {| session := sess1; reddit_texts := [];
           trace := trace st ++ [Initialized] |})) \/
  (exists name sess1 sess2 r,
     extract_subreddit_name subreddit_url = Returned name /\
     session_initialize (session st) = (sess1, Returned tt) /\
     call_tool sess1 (GetSubredditHotPosts name (Z.min post_limit 100)) = (sess2, r) /\
     let listed :=
       {| session := sess2; reddit_texts := [];
          trace := trace st
                   ++ [Initialized;
                       Called (GetSubredditHotPosts name (Z.min post_limit 100))] |} in
     scrape_reddit_mcp subreddit_url post_limit st =
     match listing_text r with
     | Raised e => (Raised e, listed)
     | Returned response_text =>
         let done :=
           exec (process_posts 1 (extract_post_ids response_text post_limit)) listed in
         (Returned (name ++ "_reddit_data.csv")%string,
          {| session := session done;
             reddit_texts := reddit_texts done;
             trace := trace done
                      ++ [WroteCsv (name ++ "_reddit_data.csv") (reddit_texts done)] |})
     end).
Proof.
  destruct (extract_subreddit_name subreddit_url) as [name | e] eqn:Hname.
  2:{ left. exists e. split; [reflexivity |].
      unfold scrape_reddit_mcp, bind, lift. now rewrite Hname. }
  right.
  destruct (session_initialize (session st)) as [sess1 [[] | e]] eqn:Hinit.
  2:{ left. exists name, sess1, e. split; [reflexivity |]. split; [reflexivity |].
      unfold scrape_reddit_mcp. unfold bind at 1. unfold lift. rewrite Hname.
      unfold bind at 1. unfold set_reddit_texts.
      unfold bind at 1. unfold initialize. cbn [session reddit_texts trace].
      now rewrite Hinit. }
  right.
  destruct (call_tool sess1 (GetSubredditHotPosts name (Z.min post_limit 100)))
    as [sess2 r] eqn:Hcall.
  exists name, sess1, sess2, r.
  split; [reflexivity |]. split; [reflexivity |]. split; [exact Hcall |].
  exact (scrape_reddit_mcp_run subreddit_url post_limit st name sess1 sess2 r
           Hname Hinit Hcall).
Qed.


(** X16: a run of [scrape_reddit_mcp] that returns has handed the
    aggregate to the CSV writer once, as its last event and whole, under
    the file name made of the parsed forum name and _reddit_data.csv,
    which is the name it returns. *)
Theorem scrape_reddit_mcp_success (subreddit_url : string) (post_limit : Z)
        (st : state) (output_file : string) :
  result (scrape_reddit_mcp subreddit_url post_limit) st = Returned output_file ->
  exists name events,
    extract_subreddit_name subreddit_url = Returned name /\
    output_file = (name ++ "_reddit_data.csv")%string /\
    trace (exec (scrape_reddit_mcp subreddit_url post_limit) st)
    = trace st ++ events
      ++ [WroteCsv output_file
            (reddit_texts (exec (scrape_reddit_mcp subreddit_url post_limit) st))] /\
    csv_writes events = [].
Proof.
  unfold result, exec.
  destruct (scrape_reddit_mcp_cases subreddit_url post_limit st)
    as [(e0 & Hname & ->) | [(name & sess1 & e0 & Hname & Hinit & ->)
                            | (name & sess1 & sess2 & r & Hname & Hinit & Hcall & ->)]];
    cbn [fst snd trace]; try discriminate.
  destruct (listing_text r) as [response_text | e0]; [| discriminate].
  cbn [fst snd trace reddit_texts]. intros [= <-].
  match goal with
  | |- context [exec (process_posts 1 ?ids) ?listed] =>
      destruct (process_posts_writes_nothing 1 ids listed) as (ev & Ht & Hw)
  end.
  exists name.
  exists ([Initialized; Called (GetSubredditHotPosts name (Z.min post_limit 100))] ++ ev).
  split; [exact Hname |]. split; [reflexivity |]. split.
  - rewrite Ht. cbn [trace]. now rewrite <- !app_assoc.
  - now rewrite csv_writes_app, Hw.
Qed.


(** X18: [main] leaves the session alone when it cannot start: with
    fewer than two arguments it ends with the usage exit, and with a
    limit that [int] rejects it raises what [int] raises; in both cases
    the state is as it was, no event has happened. *)
Theorem main_early_exit (argv : list string) (st : state) :
  (List.length argv < 2 -> main argv st = (Returned UsageExit, st)) /\
  (forall prog subreddit_url arg rest e,
     argv = prog :: subreddit_url :: arg :: rest ->
     py_int arg = Raised e ->
     main argv st = (Raised e, st)).
Proof.
  split.
  - destruct argv as [| prog [| subreddit_url rest]]; cbn [List.length];
      [reflexivity | reflexivity | lia].
  - intros prog subreddit_url arg rest e -> Hint.
    cbn [main]. unfold bind at 1. unfold lift, main_post_limit. cbn [nth_error].
    now rewrite Hint.
Qed.

End WholeRun.

(** ** Further runs on concrete collaborators *)

Lemma extract_subreddit_name_of_forum_path_witness :
  extract_subreddit_name (C := sample_server)
    "https://www.reddit.com/r/python/comments/abc123/"
  = Returned "python".
Proof.
  apply (extract_subreddit_name_of_forum_path (C := sample_server)
           "https://www.reddit.com/r/python/comments/abc123/"
           "python" "/comments/abc123/").
  - reflexivity.
  - reflexivity.
  - discriminate.
  - reflexivity.
  - right. reflexivity.
Defined.

Lemma extract_post_ids_of_listing_witness :
  extract_post_ids
    (listing_of [("see ", "abc123"); (" and ", "xyz789"); (" again ", "abc123")] ".")
    10
  = ["abc123"; "xyz789"].
Proof.
  assert (Hcap : (0 <= 10)%Z) by lia.
  refine (eq_trans
            (proj2 (extract_post_ids_of_listing
                      [("see ", "abc123"); (" and ", "xyz789"); (" again ", "abc123")]
                      "." 10 _ eq_refl Hcap))
            eq_refl).
  repeat constructor.
Defined.

Lemma extract_post_ids_monotone_witness :
  extract_post_ids sample_listing 1 = ["abc123"] /\
  extract_post_ids "/comments/a1/ /comments/b2/" 1 = ["a1"].
Proof.
  assert (Hcap : (0 <= 1 <= 10)%Z) by lia.
  destruct (extract_post_ids_monotone sample_listing 1 10 Hcap) as (Hprefix & _).
  destruct (extract_post_ids_monotone "/comments/a1/ /comments/b2/" 1 10 Hcap)
    as (_ & Hnodup).
  split.
  - rewrite Hprefix. reflexivity.
  - rewrite Hnodup; [reflexivity |].
    change (findall "/comments/a1/ /comments/b2/") with ["a1"; "b2"].
    constructor; [| constructor; [| constructor]].
    + intros [H | []]. discriminate H.
    + intros [].
Defined.

Lemma extract_comment_bodies_no_tombstone_witness :
  extract_comment_bodies deleted_with_reply = Returned ["hello"] /\
  "hello" <> "[deleted]".
Proof.
  assert (H : extract_comment_bodies deleted_with_reply = Returned ["hello"])
    by reflexivity.
  split; [exact H |].
  exact (proj1 (extract_comment_bodies_no_tombstone deleted_with_reply ["hello"] H
                  "hello" (or_introl eq_refl))).
Defined.

Lemma extract_comment_bodies_reads_two_fields_witness :
  extract_comment_bodies
    (JDict [("score", JInt 3); ("body", JString "a"); ("author", JNull)])
  = extract_comment_bodies (JDict [("body", JString "a")]).
Proof.
  apply extract_comment_bodies_reads_two_fields; reflexivity.
Defined.

Lemma extract_comment_bodies_raise_spreads_witness :
  exists e,
    extract_comment_bodies
      (JList [JDict [("body", JString "kept")]; JDict [("body", JNull)]])
    = Raised e.
Proof.
  assert (H : extract_comment_bodies (JDict [("body", JNull)]) = Raised AttributeError)
    by reflexivity.
  apply (proj1 (extract_comment_bodies_raise_spreads _ _ H)).
  right. left. reflexivity.
Defined.

Lemma process_posts_pauses_witness :
  exists events,
    trace (exec (process_posts (C := sample_server) 1
                   ["a"; "b"; "c"; "d"; "e"; "f"; "g"; "h"; "i"; "j"; "k"])
                (initial_state (C := sample_server) tt))
    = events /\
    sleeps events = 1.
Proof.
  destruct (process_posts_pauses (C := sample_server)
              ["a"; "b"; "c"; "d"; "e"; "f"; "g"; "h"; "i"; "j"; "k"]
              (initial_state (C := sample_server) tt))
    as (events & Ht & _ & Heq & _).
  exists events. split; [exact Ht |].
  rewrite Heq; [reflexivity |]. intros s id. reflexivity.
Defined.

Lemma process_posts_no_raw_text_witness :
  reddit_texts (exec (process_posts (C := no_json) 1 ["abc123"; "xyz789"])
                     (initial_state (C := no_json) tt))
  = [].
Proof.
  apply (process_posts_no_raw_text (C := no_json) 1 ["abc123"; "xyz789"]
           (initial_state (C := no_json) tt)).
  intros text. exists JSONDecodeError. reflexivity.
Defined.

Lemma process_post_comments_failure_witness :
  reddit_texts (exec (process_post (C := comments_call_fails) 1 "abc123")
                     (initial_state (C := comments_call_fails) tt))
  = ["Hi"; "there"].
Proof.
  refine (proj2 (process_post_comments_failure (C := comments_call_fails)
                   1 "abc123" (initial_state (C := comments_call_fails) tt)
                   tt tt (Returned [TextContent "content of the post"])
                   (Raised OtherException) eq_refl eq_refl eq_refl I)).
Defined.

Lemma process_post_error_marker_witness :
  process_post (C := content_soft_error) 3 "abc123"
    (initial_state (C := content_soft_error) tt)
  = (Returned tt,
     @Build_state content_soft_error tt [] [Called (GetPostContent "abc123")]).
Proof.
  exact (process_post_error_marker (C := content_soft_error) 3 "abc123"
           (initial_state (C := content_soft_error) tt) tt
           "Error processing request" [] eq_refl eq_refl).
Defined.

Lemma process_post_title_before_body_raises_witness :
  process_post (C := body_is_number) 1 "abc123"
    (initial_state (C := body_is_number) tt)
  = (Returned tt,
     @Build_state body_is_number tt ["Hi"] [Called (GetPostContent "abc123")]).
Proof.
  exact (process_post_title_before_body_raises (C := body_is_number) 1 "abc123"
           (initial_state (C := body_is_number) tt) tt
           "content of the post" []
           [("title", JString " Hi "); ("selftext", JInt 5)] " Hi "
           eq_refl eq_refl eq_refl eq_refl eq_refl).
Defined.


Lemma scrape_reddit_mcp_success_witness :
  exists name,
    extract_subreddit_name (C := sample_server) "r/dahab" = Returned name /\
    result (scrape_reddit_mcp (C := sample_server) "r/dahab" 10)
           (initial_state (C := sample_server) tt)
    = Returned (name ++ "_reddit_data.csv")%string.
Proof.
  assert (H : result (scrape_reddit_mcp (C := sample_server) "r/dahab" 10)
                     (initial_state (C := sample_server) tt)
              = Returned "dahab_reddit_data.csv") by reflexivity.
  destruct (scrape_reddit_mcp_success (C := sample_server) "r/dahab" 10
              (initial_state (C := sample_server) tt) "dahab_reddit_data.csv" H)
    as (name & events & Hname & Hfile & _).
  exists name. split; [exact Hname |]. now rewrite <- Hfile.
Defined.


Lemma main_early_exit_witness :
  main (C := sample_server) ["reddit_mcp_scraper.py"]
       (initial_state (C := sample_server) tt)
  = (Returned UsageExit, initial_state (C := sample_server) tt) /\
  main (C := sample_server) ["reddit_mcp_scraper.py"; "r/dahab"; "ten"]
       (initial_state (C := sample_server) tt)
  = (Raised ValueError, initial_state (C := sample_server) tt).
Proof.
  split.
  - apply (proj1 (main_early_exit (C := sample_server) ["reddit_mcp_scraper.py"]
                    (initial_state (C := sample_server) tt))).
    cbn [List.length]. lia.
  - apply (proj2 (main_early_exit (C := sample_server)
                    ["reddit_mcp_scraper.py"; "r/dahab"; "ten"]
                    (initial_state (C := sample_server) tt))
             "reddit_mcp_scraper.py" "r/dahab" "ten" [] ValueError eq_refl eq_refl).
Defined.
